(** * The HashGNN node-classification notebook, as a program over the client API

    Source: [examples/heterogeneous-node-classification-with-hashgnn.ipynb].

    The notebook is a straight-line script: it reads four environment
    variables, opens a client session, checks the server version with one
    [assert], and then issues a fixed sequence of calls into the
    [graphdatascience] client (load, inspect, configure, train, predict,
    drop).  Each client call either returns a value or raises; nothing in
    the notebook catches an exception.

    The embedding follows that shape:
    - the process environment is a finite map from names to strings;
    - a client call is a constructor of [call], its Python return type is
      [resp c];
    - the party answering the calls (client library plus server) is a
      parameter: a state type and a function [serve];
    - a cell is a computation in a state-and-exception monad [NB] that logs
      every call together with the cell that issued it. *)

From Stdlib Require Import PrimFloat.
From stdpp Require Import base option list strings gmap.

Set Warnings "-inexact-float,-register-all".
Set Default Proof Using "Type".
Open Scope string_scope.
Open Scope list_scope.

(** ** The process environment ([os.environ]) *)

Module Environ.

Abbreviation t := (gmap string string).

(** [os.environ.get(key)]: the value, or Python's [None]. *)
Definition get (env : t) (key : string) : option string := env !! key.

(** [os.environ.get(key, default)]. *)
Definition get_default (env : t) (key default : string) : string :=
  match env !! key with
  | Some v => v
  | None => default
  end.

(** Truth value of an [Optional[str]] in a condition: [None] and the
    empty string are false, every other string is true. *)
Definition truthy (v : option string) : bool :=
  match v with
  | Some s => negb (String.eqb s "")
  | None => false
  end.

End Environ.

(** ** Cell 51c1426e: connection parameters

<<
NEO4J_URI = os.environ.get("NEO4J_URI", "bolt://localhost:7687")
NEO4J_AUTH = None
NEO4J_DB = os.environ.get("NEO4J_DB", "neo4j")
if os.environ.get("NEO4J_USER") and os.environ.get("NEO4J_PASSWORD"):
    NEO4J_AUTH = (
        os.environ.get("NEO4J_USER"),
        os.environ.get("NEO4J_PASSWORD"),
    )
>> *)

(** The [auth] argument: [None], or the pair of the two lookups. *)
Definition auth_t : Type := option (option string * option string).

Definition NEO4J_URI (env : Environ.t) : string :=
  Environ.get_default env "NEO4J_URI" "bolt://localhost:7687".

Definition NEO4J_DB (env : Environ.t) : string :=
  Environ.get_default env "NEO4J_DB" "neo4j".

Definition NEO4J_AUTH (env : Environ.t) : auth_t :=
  if Environ.truthy (Environ.get env "NEO4J_USER")
     && Environ.truthy (Environ.get env "NEO4J_PASSWORD")
  then Some (Environ.get env "NEO4J_USER", Environ.get env "NEO4J_PASSWORD")
  else None.

(** ** Values exchanged with the client library *)

(** The Python values the calls of this notebook return or print. *)
Inductive pyval : Type :=
| VNone
| VBool (b : bool)
| VInt (z : Z)
| VFloat (f : float)
| VStr (s : string)
| VList (l : list pyval)
| VDict (d : list (string * pyval)).

(** A pandas [Series]: an ordered index of labelled values. *)
Abbreviation Series := (list (string * pyval)).

(** [series[key]]: the first value under [key]; [None] stands for the
    [KeyError] that the subscript raises. *)
Fixpoint Series_getitem (s : Series) (key : string) : option pyval :=
  match s with
  | [] => None
  | (k, v) :: s' => if String.eqb k key then Some v else Series_getitem s' key
  end.

(** A pandas [DataFrame], row-major. *)
Record DataFrame : Type := { columns : list string; rows : list (list pyval) }.

(** [df.head()]: the first five rows. *)
Definition DataFrame_head (df : DataFrame) : DataFrame :=
  {| columns := columns df; rows := take 5 (rows df) |}.

(** A keyword argument: number, flag, string, list of strings, or a
    two-element tuple (the range handed to autotuning). *)
Inductive param : Type :=
| PInt (z : Z)
| PFloat (f : float)
| PBool (b : bool)
| PStr (s : string)
| PStrs (l : list string)
| PIntRange (lo hi : Z)
| PFloatRange (lo hi : float).

Abbreviation kwargs := (list (string * param)).

Fixpoint kwargs_get (kw : kwargs) (key : string) : option param :=
  match kw with
  | [] => None
  | (k, v) :: kw' => if String.eqb k key then Some v else kwargs_get kw' key
  end.

(** Modelled from the spec: the class [ServerVersion] is imported from the
    client library and is not part of the notebook.  The notebook builds it
    from three integers and compares two of them with [>=]; "a version at or
    above the asserted minimum" is read as the usual order of version
    numbers, major first, then minor, then patch. *)
Module ServerVersion.

Record t : Type := make { major : Z; minor : Z; patch : Z }.

Definition lt (a b : t) : bool :=
  if negb (major a =? major b)%Z then (major a <? major b)%Z
  else if negb (minor a =? minor b)%Z then (minor a <? minor b)%Z
  else (patch a <? patch b)%Z.

(** [a >= b]. *)
Definition ge (a b : t) : bool := negb (lt a b).

End ServerVersion.

(** Modelled from the spec: the handle classes of the client library
    ([Graph], the node-classification pipeline and its model) are not part
    of the notebook.  The spec describes each as an opaque reference that
    identifies a server-resident object by its name. *)
Record Graph : Type := { Graph_name : string }.
Record NCPipeline : Type := { NCPipeline_name : string }.
Record NCModel : Type := { NCModel_name : string }.

(** ** The calls the notebook makes *)

Inductive call : Type :=
| GraphDataScience (uri : string) (auth : auth_t) (database : string)
| server_version
| graph_load_imdb
| Graph_str (G : Graph)
| Graph_node_labels (G : Graph)
| Graph_relationship_types (G : Graph)
| Graph_node_properties (G : Graph)
| Graph_drop (G : Graph)
| pipeline_nodeClassification_create (name : string)
| configureSplit (pipe : NCPipeline) (config : kwargs)
| addNodeProperty (pipe : NCPipeline) (procedure_name : string) (config : kwargs)
| selectFeatures (pipe : NCPipeline) (node_property : string)
| addLogisticRegression (pipe : NCPipeline) (config : kwargs)
| addRandomForest (pipe : NCPipeline) (config : kwargs)
| train (pipe : NCPipeline) (G : Graph) (config : kwargs)
| NCPipeline_drop (pipe : NCPipeline)
| metrics (model : NCModel)
| best_parameters (model : NCModel)
| predict_stream (model : NCModel) (G : Graph) (config : kwargs)
| NCModel_drop (model : NCModel).

(** The Python type of what each call returns. *)
Definition resp (c : call) : Type :=
  match c with
  | GraphDataScience _ _ _ => unit
  | server_version => ServerVersion.t
  | graph_load_imdb => Graph
  | Graph_str _ => string
  | Graph_node_labels _ => list string
  | Graph_relationship_types _ => list string
  | Graph_node_properties _ => list (string * list string)
  | Graph_drop _ => Series
  | pipeline_nodeClassification_create _ => NCPipeline * Series
  | configureSplit _ _ => Series
  | addNodeProperty _ _ _ => Series
  | selectFeatures _ _ => Series
  | addLogisticRegression _ _ => Series
  | addRandomForest _ _ => Series
  | train _ _ _ => NCModel * Series
  | NCPipeline_drop _ => Series
  | metrics _ => Series
  | best_parameters _ => Series
  | predict_stream _ _ _ => DataFrame
  | NCModel_drop _ => Series
  end.

(** What a call can raise.  The notebook defines no error classes of its
    own; these are the three kinds the spec names: the target cannot be
    reached, a named resource does not exist, anything else the server
    reports. *)
Inductive client_error : Type :=
| ConnectionError (target : string)
| ResourceNotFound (name : string)
| ServerError (message : string).

(** The exceptions that can end a cell. *)
Inductive exn : Type :=
| AssertionError
| KeyError (key : string)
| ClientError (e : client_error).

(** What a cell prints. *)
Inductive shown : Type :=
| ShownStr (s : string)
| ShownStrs (l : list string)
| ShownProperties (l : list (string * list string))
| ShownValue (v : pyval)
| ShownSeries (s : Series)
| ShownFrame (df : DataFrame).

Record printed : Type := { text : string; value : shown }.

(** One line of the call log: the cell, the call, and the error if the
    call raised. *)
Record entry : Type := { in_cell : string; issued : call; failed : option client_error }.

(** ** The notebook monad *)

Section Notebook.

(** The other side of the calls: any state type and any way of answering.
    An answer is an error or a value of the call's return type, and a new
    state. *)
Context {St : Type}.
Variable serve : ∀ c : call, St → (client_error + resp c) * St.

(** The kernel's state while the notebook runs. *)
Record nb_state : Type := {
  server : St;
  log : list entry;
  stdout : list printed;
  cell : string
}.

Definition init (s : St) : nb_state :=
  {| server := s; log := []; stdout := []; cell := "" |}.

Inductive outcome (A : Type) : Type :=
| Returned (a : A) (s : nb_state)
| Raised (e : exn) (s : nb_state).
Global Arguments Returned {A} a s.
Global Arguments Raised {A} e s.

Definition final {A} (o : outcome A) : nb_state :=
  match o with Returned _ s | Raised _ s => s end.

Definition NB (A : Type) : Type := nb_state → outcome A.

Definition ret {A} (a : A) : NB A := λ s, Returned a s.

Definition bind {A B} (m : NB A) (k : A → NB B) : NB B :=
  λ s, match m s with
       | Returned a s' => k a s'
       | Raised e s' => Raised e s'
       end.

Definition raise {A} (e : exn) : NB A := λ s, Raised e s.

(** Execution reaches the cell with this id. *)
Definition enter (id : string) : NB unit :=
  λ s, Returned tt {| server := server s; log := log s; stdout := stdout s; cell := id |}.

(** One call into the client: logged under the current cell; a raised
    error ends the computation. *)
Definition invoke (c : call) : NB (resp c) :=
  λ s, match serve c (server s) with
       | (inl e, st) =>
           Raised (ClientError e)
             {| server := st;
                log := log s ++ [ {| in_cell := cell s; issued := c; failed := Some e |} ];
                stdout := stdout s; cell := cell s |}
       | (inr r, st) =>
           Returned r
             {| server := st;
                log := log s ++ [ {| in_cell := cell s; issued := c; failed := None |} ];
                stdout := stdout s; cell := cell s |}
       end.

(** [print(f"<text>{value}")]: the text before the placeholder (without
    its line break, where it ends in one) and the value shown. *)
Definition print (t : string) (v : shown) : NB unit :=
  λ s, Returned tt
         {| server := server s; log := log s;
            stdout := stdout s ++ [ {| text := t; value := v |} ]; cell := cell s |}.

(** [assert cond]. *)
Definition assert (cond : bool) : NB unit :=
  if cond then ret tt else raise AssertionError.

(** [series[key]] as a statement. *)
Definition getitem (s : Series) (key : string) : NB pyval :=
  match Series_getitem s key with
  | Some v => ret v
  | None => raise (KeyError key)
  end.

Notation "'let*' p ':=' m 'in' k" := (bind m (λ p, k))
  (at level 10, p pattern, m at level 100, k at level 200, only parsing).
Notation "m >> k" := (bind m (λ _, k))
  (at level 100, k at level 200, right associativity, only parsing).

(** ** The code cells, in notebook order *)

Variable env : Environ.t.

(** [%pip install "graphdatascience>=1.6"]: a shell command, no client call. *)
Definition cell_fb62e54d : NB unit := enter "fb62e54d".

(** [import os], [from graphdatascience import GraphDataScience]: no client
    call. *)
Definition cell_1730fe57 : NB unit := enter "1730fe57".

(** [gds = GraphDataScience(NEO4J_URI, auth=NEO4J_AUTH, database=NEO4J_DB)] *)
Definition cell_51c1426e : NB unit :=
  enter "51c1426e" >>
  invoke (GraphDataScience (NEO4J_URI env) (NEO4J_AUTH env) (NEO4J_DB env)).

Definition minimum_version : ServerVersion.t := ServerVersion.make 2 5 0.

(** [assert gds.server_version() >= ServerVersion(2, 5, 0)] *)
Definition cell_3c2a8de1 : NB unit :=
  enter "3c2a8de1" >>
  let* v := invoke server_version in
  assert (ServerVersion.ge v minimum_version).

(** [G = gds.graph.load_imdb()] *)
Definition cell_156843c3 : NB Graph :=
  enter "156843c3" >>
  invoke graph_load_imdb.

(** Formatting [{G}] calls [Graph.__str__], a method of the client library.
<<
print(f"Overview of G: {G}")
print(f"Node labels in G: {G.node_labels()}")
print(f"Relationship types in G: {G.relationship_types()}")
>> *)
Definition cell_478eaed5 (G : Graph) : NB unit :=
  enter "478eaed5" >>
  let* overview := invoke (Graph_str G) in
  print "Overview of G: " (ShownStr overview) >>
  let* labels := invoke (Graph_node_labels G) in
  print "Node labels in G: " (ShownStrs labels) >>
  let* types := invoke (Graph_relationship_types G) in
  print "Relationship types in G: " (ShownStrs types).

(** [print(f"Node properties per label:\n{G.node_properties()}")] *)
Definition cell_095c5def (G : Graph) : NB unit :=
  enter "095c5def" >>
  let* properties := invoke (Graph_node_properties G) in
  print "Node properties per label:" (ShownProperties properties).

(** [pipe, _ = gds.beta.pipeline.nodeClassification.create("genre-predictor-pipe")] *)
Definition cell_48d11361 : NB NCPipeline :=
  enter "48d11361" >>
  let* (pipe, _) := invoke (pipeline_nodeClassification_create "genre-predictor-pipe") in
  ret pipe.

(** [_ = pipe.configureSplit(testFraction=0.796)] *)
Definition cell_9aacdd72 (pipe : NCPipeline) : NB unit :=
  enter "9aacdd72" >>
  invoke (configureSplit pipe [("testFraction", PFloat 0.796)]) >>
  ret tt.

(** [_ = pipe.addNodeProperty("hashgnn", mutateProperty="embedding", ...,
    randomSeed=41, contextNodeLabels=G.node_labels())]: the last argument is
    evaluated, by a call of its own, before [addNodeProperty] is called. *)
Definition cell_5e254efe (G : Graph) (pipe : NCPipeline) : NB unit :=
  enter "5e254efe" >>
  let* labels := invoke (Graph_node_labels G) in
  invoke (addNodeProperty pipe "hashgnn"
            [("mutateProperty", PStr "embedding");
             ("iterations", PInt 4);
             ("heterogeneous", PBool true);
             ("embeddingDensity", PInt 512);
             ("neighborInfluence", PFloat 0.7);
             ("featureProperties", PStrs ["plot_keywords"]);
             ("randomSeed", PInt 41);
             ("contextNodeLabels", PStrs labels)]) >>
  ret tt.

(** [_ = pipe.selectFeatures("embedding")] *)
Definition cell_30ff6713 (pipe : NCPipeline) : NB unit :=
  enter "30ff6713" >>
  invoke (selectFeatures pipe "embedding") >>
  ret tt.

(** [_ = pipe.addLogisticRegression(penalty=(0.1, 1.0), maxEpochs=1000,
    patience=5, tolerance=0.0001, learningRate=0.01)] *)
Definition cell_8bccd326 (pipe : NCPipeline) : NB unit :=
  enter "8bccd326" >>
  invoke (addLogisticRegression pipe
            [("penalty", PFloatRange 0.1 1.0);
             ("maxEpochs", PInt 1000);
             ("patience", PInt 5);
             ("tolerance", PFloat 0.0001);
             ("learningRate", PFloat 0.01)]) >>
  ret tt.

(** [_ = pipe.addRandomForest(minSplitSize=(2, 100), criterion="ENTROPY")] *)
Definition cell_62fca4ac (pipe : NCPipeline) : NB unit :=
  enter "62fca4ac" >>
  invoke (addRandomForest pipe
            [("minSplitSize", PIntRange 2 100);
             ("criterion", PStr "ENTROPY")]) >>
  ret tt.

(** The keyword arguments of the training call. *)
Definition train_config : kwargs :=
  [("modelName", PStr "genre-predictor-model");
   ("targetNodeLabels", PStrs ["Movie"]);
   ("targetProperty", PStr "genre");
   ("metrics", PStrs ["F1_MACRO"]);
   ("randomSeed", PInt 42)].

(** [model, _ = pipe.train(G, modelName="genre-predictor-model",
    targetNodeLabels=["Movie"], targetProperty="genre", metrics=["F1_MACRO"],
    randomSeed=42)] *)
Definition cell_89b8ad98 (G : Graph) (pipe : NCPipeline) : NB NCModel :=
  enter "89b8ad98" >>
  let* (model, _) := invoke (train pipe G train_config) in
  ret model.

(** [print(f"Accuracy scores of trained model:\n{model.metrics()['F1_MACRO']}")] *)
Definition cell_c9a4f264 (model : NCModel) : NB unit :=
  enter "c9a4f264" >>
  let* scores := invoke (metrics model) in
  let* f1 := getitem scores "F1_MACRO" in
  print "Accuracy scores of trained model:" (ShownValue f1).

(** [print(f"Winning ML algorithm candidate config:\n{model.best_parameters()}")] *)
Definition cell_df73b21c (model : NCModel) : NB unit :=
  enter "df73b21c" >>
  let* best := invoke (best_parameters model) in
  print "Winning ML algorithm candidate config:" (ShownSeries best).

(**
<<
predictions = model.predict_stream(G, targetNodeLabels=["UnclassifiedMovie"],
                                   includePredictedProbabilities=True)
print(f"First predictions of unclassified movie nodes:\n{predictions.head()}")
>> *)
Definition cell_d4419924 (G : Graph) (model : NCModel) : NB DataFrame :=
  enter "d4419924" >>
  let* predictions := invoke (predict_stream model G
                          [("targetNodeLabels", PStrs ["UnclassifiedMovie"]);
                           ("includePredictedProbabilities", PBool true)]) in
  print "First predictions of unclassified movie nodes:"
    (ShownFrame (DataFrame_head predictions)) >>
  ret predictions.

(** [_ = G.drop()], [_ = pipe.drop()], [_ = model.drop()] *)
Definition cell_9241d9ff (G : Graph) : NB unit :=
  enter "9241d9ff" >> invoke (Graph_drop G) >> ret tt.

Definition cell_94b96625 (pipe : NCPipeline) : NB unit :=
  enter "94b96625" >> invoke (NCPipeline_drop pipe) >> ret tt.

Definition cell_a85e1799 (model : NCModel) : NB unit :=
  enter "a85e1799" >> invoke (NCModel_drop model) >> ret tt.

(** ** Running the cells top to bottom *)

(** The cells up to and including the version gate. *)
Definition setup : NB unit :=
  cell_fb62e54d >> cell_1730fe57 >> cell_51c1426e >> cell_3c2a8de1.

(** Loading and inspecting the dataset. *)
Definition load : NB Graph :=
  let* G := cell_156843c3 in
  cell_478eaed5 G >>
  cell_095c5def G >>
  ret G.

(** Creating and configuring the pipeline. *)
Definition configure (G : Graph) : NB NCPipeline :=
  let* pipe := cell_48d11361 in
  cell_9aacdd72 pipe >>
  cell_5e254efe G pipe >>
  cell_30ff6713 pipe >>
  cell_8bccd326 pipe >>
  cell_62fca4ac pipe >>
  ret pipe.

(** Training, inspecting the model, predicting. *)
Definition train_and_predict (G : Graph) (pipe : NCPipeline) : NB NCModel :=
  let* model := cell_89b8ad98 G pipe in
  cell_c9a4f264 model >>
  cell_df73b21c model >>
  cell_d4419924 G model >>
  ret model.

Definition cleanup (G : Graph) (pipe : NCPipeline) (model : NCModel) : NB unit :=
  cell_9241d9ff G >> cell_94b96625 pipe >> cell_a85e1799 model.

(** The variables the kernel holds when the last cell has run. *)
Record handles : Type := { var_G : Graph; var_pipe : NCPipeline; var_model : NCModel }.

Definition notebook : NB handles :=
  setup >>
  let* G := load in
  let* pipe := configure G in
  let* model := train_and_predict G pipe in
  cleanup G pipe model >>
  ret {| var_G := G; var_pipe := pipe; var_model := model |}.

End Notebook.

Arguments nb_state St : clear implicits.
Arguments outcome St A : clear implicits.
Arguments NB St A : clear implicits.

(** The calls of a complete run, each with the cell that makes it, given
    the values that came back: the graph handle, the labels read in cell
    5e254efe, the pipeline handle and the model handle. *)
Definition script (env : Environ.t) (G : Graph) (labels : list string)
    (pipe : NCPipeline) (model : NCModel) : list (string * call) :=
  [ ("51c1426e", GraphDataScience (NEO4J_URI env) (NEO4J_AUTH env) (NEO4J_DB env));
    ("3c2a8de1", server_version);
    ("156843c3", graph_load_imdb);
    ("478eaed5", Graph_str G);
    ("478eaed5", Graph_node_labels G);
    ("478eaed5", Graph_relationship_types G);
    ("095c5def", Graph_node_properties G);
    ("48d11361", pipeline_nodeClassification_create "genre-predictor-pipe");
    ("9aacdd72", configureSplit pipe [("testFraction", PFloat 0.796)]);
    ("5e254efe", Graph_node_labels G);
    ("5e254efe", addNodeProperty pipe "hashgnn"
                   [("mutateProperty", PStr "embedding");
                    ("iterations", PInt 4);
                    ("heterogeneous", PBool true);
                    ("embeddingDensity", PInt 512);
                    ("neighborInfluence", PFloat 0.7);
                    ("featureProperties", PStrs ["plot_keywords"]);
                    ("randomSeed", PInt 41);
                    ("contextNodeLabels", PStrs labels)]);
    ("30ff6713", selectFeatures pipe "embedding");
    ("8bccd326", addLogisticRegression pipe
                   [("penalty", PFloatRange 0.1 1.0);
                    ("maxEpochs", PInt 1000);
                    ("patience", PInt 5);
                    ("tolerance", PFloat 0.0001);
                    ("learningRate", PFloat 0.01)]);
    ("62fca4ac", addRandomForest pipe
                   [("minSplitSize", PIntRange 2 100);
                    ("criterion", PStr "ENTROPY")]);
    ("89b8ad98", train pipe G train_config);
    ("c9a4f264", metrics model);
    ("df73b21c", best_parameters model);
    ("d4419924", predict_stream model G
                   [("targetNodeLabels", PStrs ["UnclassifiedMovie"]);
                    ("includePredictedProbabilities", PBool true)]);
    ("9241d9ff", Graph_drop G);
    ("94b96625", NCPipeline_drop pipe);
    ("a85e1799", NCModel_drop model) ].

(** The cell and the call of a log entry. *)
Definition made (e : entry) : string * call := (in_cell e, issued e).

(** ** Handles and the calls made on them *)

Inductive resource : Type :=
| AGraph (G : Graph)
| APipeline (pipe : NCPipeline)
| AModel (model : NCModel).

Definition resource_name (r : resource) : string :=
  match r with
  | AGraph G => Graph_name G
  | APipeline pipe => NCPipeline_name pipe
  | AModel model => NCModel_name model
  end.

(** The handle a method call is made on. *)
Definition receiver (c : call) : option resource :=
  match c with
  | Graph_str G | Graph_node_labels G | Graph_relationship_types G
  | Graph_node_properties G | Graph_drop G => Some (AGraph G)
  | configureSplit pipe _ | addNodeProperty pipe _ _ | selectFeatures pipe _
  | addLogisticRegression pipe _ | addRandomForest pipe _ | train pipe _ _
  | NCPipeline_drop pipe => Some (APipeline pipe)
  | metrics model | best_parameters model | predict_stream model _ _
  | NCModel_drop model => Some (AModel model)
  | GraphDataScience _ _ _ | server_version | graph_load_imdb
  | pipeline_nodeClassification_create _ => None
  end.

(** The read accessors among them. *)
Definition accessor (c : call) : bool :=
  match c with
  | Graph_str _ | Graph_node_labels _ | Graph_relationship_types _
  | Graph_node_properties _ | metrics _ | best_parameters _ => true
  | _ => false
  end.

(** The release call of a handle. *)
Definition release (r : resource) : call :=
  match r with
  | AGraph G => Graph_drop G
  | APipeline pipe => NCPipeline_drop pipe
  | AModel model => NCModel_drop model
  end.

(** ** The server-side catalogs *)

(** Modelled from the spec: the client library's handle methods and the
    server they delegate to are not part of the notebook.  The spec's data
    model is followed: graphs, pipeline configurations and models are
    server-resident and identified by name; a handle is that name; every
    call on a handle is a fresh lookup; a pipeline is created empty and
    mutated by the configuration calls; training reads the pipeline, applies
    its node-property steps to the graph and stores a model; a release call
    destroys the named object.  The algorithms the spec leaves opaque
    (training, inference, the printed overview of a graph) are parameters. *)
Module Server.

(** A graph projection, as far as the introspection calls show it: the
    property names per node label, and the relationship types. *)
Record projection : Type := {
  node_schema : list (string * list string);
  relationship_schema : list string
}.

(** The example dataset as the notebook documents it: [Movie], [Actor]
    and [Director] nodes, some movies under [UnclassifiedMovie]; every
    node has [plot_keywords], only [Movie] nodes have [genre]; the
    relationships are [ACTED_IN] and [DIRECTED_IN]. *)
Definition imdb : projection :=
  {| node_schema :=
       [ ("Movie", ["plot_keywords"; "genre"]);
         ("Actor", ["plot_keywords"]);
         ("Director", ["plot_keywords"]);
         ("UnclassifiedMovie", ["plot_keywords"]) ];
     relationship_schema := ["ACTED_IN"; "DIRECTED_IN"] |}.

Definition imdb_name : string := "imdb".

(** A pipeline configuration: node-property steps in order, selected
    features, split configuration, candidate model specifications. *)
Record pipeline : Type := {
  steps : list (string * kwargs);
  features : list string;
  split : kwargs;
  candidates : list (string * kwargs)
}.

Definition empty_pipeline : pipeline :=
  {| steps := []; features := []; split := []; candidates := [] |}.

(** A trained model: winning hyperparameters and metric values. *)
Record model : Type := { winner : Series; scores : Series }.

Record catalog : Type := {
  online : bool;
  version : ServerVersion.t;
  graphs : gmap string projection;
  pipelines : gmap string pipeline;
  models : gmap string model
}.

Definition set_graphs (f : gmap string projection → gmap string projection)
    (st : catalog) : catalog :=
  {| online := online st; version := version st; graphs := f (graphs st);
     pipelines := pipelines st; models := models st |}.

Definition set_pipelines (f : gmap string pipeline → gmap string pipeline)
    (st : catalog) : catalog :=
  {| online := online st; version := version st; graphs := graphs st;
     pipelines := f (pipelines st); models := models st |}.

Definition set_models (f : gmap string model → gmap string model)
    (st : catalog) : catalog :=
  {| online := online st; version := version st; graphs := graphs st;
     pipelines := pipelines st; models := f (models st) |}.

(** The node property a step writes, if it names one. *)
Definition mutated_property (step : string * kwargs) : option string :=
  match kwargs_get step.2 "mutateProperty" with
  | Some (PStr p) => Some p
  | _ => None
  end.

(** Applying the node-property steps adds their properties to the nodes
    of the graph. *)
Definition apply_steps (ss : list (string * kwargs)) (g : projection) : projection :=
  {| node_schema :=
       (λ lp : string * list string, (lp.1, lp.2 ++ omap mutated_property ss))
         <$> node_schema g;
     relationship_schema := relationship_schema g |}.

(** The acknowledgement a mutating call returns. *)
Definition ack (name : string) : Series := [("name", VStr name)].

(** Is an object registered under the handle's name? *)
Definition registered (r : resource) (st : catalog) : bool :=
  match r with
  | AGraph G => bool_decide (is_Some (graphs st !! Graph_name G))
  | APipeline pipe => bool_decide (is_Some (pipelines st !! NCPipeline_name pipe))
  | AModel m => bool_decide (is_Some (models st !! NCModel_name m))
  end.

(** The object a call registers, if it registers one. *)
Definition creates (c : call) : option resource :=
  match c with
  | graph_load_imdb => Some (AGraph {| Graph_name := imdb_name |})
  | pipeline_nodeClassification_create name => Some (APipeline {| NCPipeline_name := name |})
  | train _ _ config =>
      match kwargs_get config "modelName" with
      | Some (PStr name) => Some (AModel {| NCModel_name := name |})
      | _ => None
      end
  | _ => None
  end.

Section Serve.

Variable overview : string → projection → string.
Variable fit : projection → pipeline → kwargs → model.
Variable infer : model → projection → kwargs → DataFrame.

Definition missing {A} (name : string) (st : catalog) : (client_error + A) * catalog :=
  (inl (ResourceNotFound name), st).

(** A read on a graph handle. *)
Definition on_graph {A} (G : Graph) (st : catalog) (read : projection → A)
    : (client_error + A) * catalog :=
  match graphs st !! Graph_name G with
  | Some g => (inr (read g), st)
  | None => missing (Graph_name G) st
  end.

(** A configuration call on a pipeline handle. *)
Definition on_pipeline (pipe : NCPipeline) (st : catalog) (change : pipeline → pipeline)
    : (client_error + Series) * catalog :=
  match pipelines st !! NCPipeline_name pipe with
  | Some p =>
      (inr (ack (NCPipeline_name pipe)),
       set_pipelines <[NCPipeline_name pipe := change p]> st)
  | None => missing (NCPipeline_name pipe) st
  end.

(** A read on a model handle. *)
Definition on_model {A} (m : NCModel) (st : catalog) (read : model → A)
    : (client_error + A) * catalog :=
  match models st !! NCModel_name m with
  | Some t => (inr (read t), st)
  | None => missing (NCModel_name m) st
  end.

Definition serve (c : call) (st : catalog) : (client_error + resp c) * catalog :=
  match c with
  | GraphDataScience uri _ _ =>
      if online st then (inr tt, st) else (inl (ConnectionError uri), st)
  | server_version => (inr (version st), st)
  | graph_load_imdb =>
      (inr {| Graph_name := imdb_name |}, set_graphs <[imdb_name := imdb]> st)
  | Graph_str G => on_graph G st (overview (Graph_name G))
  | Graph_node_labels G => on_graph G st (λ g, (node_schema g).*1)
  | Graph_relationship_types G => on_graph G st relationship_schema
  | Graph_node_properties G => on_graph G st node_schema
  | Graph_drop G =>
      match graphs st !! Graph_name G with
      | Some _ => (inr (ack (Graph_name G)), set_graphs (delete (Graph_name G)) st)
      | None => missing (Graph_name G) st
      end
  | pipeline_nodeClassification_create name =>
      (inr ({| NCPipeline_name := name |}, ack name),
       set_pipelines <[name := empty_pipeline]> st)
  | configureSplit pipe config =>
      on_pipeline pipe st (λ p,
        {| steps := steps p; features := features p; split := config;
           candidates := candidates p |})
  | addNodeProperty pipe procedure config =>
      on_pipeline pipe st (λ p,
        {| steps := steps p ++ [(procedure, config)]; features := features p;
           split := split p; candidates := candidates p |})
  | selectFeatures pipe property =>
      on_pipeline pipe st (λ p,
        {| steps := steps p; features := features p ++ [property];
           split := split p; candidates := candidates p |})
  | addLogisticRegression pipe config =>
      on_pipeline pipe st (λ p,
        {| steps := steps p; features := features p; split := split p;
           candidates := candidates p ++ [("LogisticRegression", config)] |})
  | addRandomForest pipe config =>
      on_pipeline pipe st (λ p,
        {| steps := steps p; features := features p; split := split p;
           candidates := candidates p ++ [("RandomForest", config)] |})
  | train pipe G config =>
      match pipelines st !! NCPipeline_name pipe with
      | None => missing (NCPipeline_name pipe) st
      | Some p =>
          match graphs st !! Graph_name G with
          | None => missing (Graph_name G) st
          | Some g =>
              match kwargs_get config "modelName" with
              | Some (PStr name) =>
                  let g' := apply_steps (steps p) g in
                  (inr ({| NCModel_name := name |}, ack name),
                   set_models <[name := fit g' p config]>
                     (set_graphs <[Graph_name G := g']> st))
              | _ => (inl (ServerError "modelName"), st)
              end
          end
      end
  | NCPipeline_drop pipe =>
      match pipelines st !! NCPipeline_name pipe with
      | Some _ =>
          (inr (ack (NCPipeline_name pipe)),
           set_pipelines (delete (NCPipeline_name pipe)) st)
      | None => missing (NCPipeline_name pipe) st
      end
  | metrics m => on_model m st scores
  | best_parameters m => on_model m st winner
  | predict_stream m G config =>
      match models st !! NCModel_name m with
      | None => missing (NCModel_name m) st
      | Some t =>
          match graphs st !! Graph_name G with
          | None => missing (Graph_name G) st
          | Some g => (inr (infer t g config), st)
          end
      end
  | NCModel_drop m =>
      match models st !! NCModel_name m with
      | Some _ => (inr (ack (NCModel_name m)), set_models (delete (NCModel_name m)) st)
      | None => missing (NCModel_name m) st
      end
  end.

(** The catalog after a call. *)
Definition next (c : call) (st : catalog) : catalog := (serve c st).2.

(** Did the call return (rather than raise)? *)
Definition returns (c : call) (st : catalog) : bool :=
  match (serve c st).1 with
  | inr _ => true
  | inl _ => false
  end.

(** [later r st st']: the catalog [st'] is reached from [st] by any
    number of further calls, none of which registers an object under
    the name of [r] again. *)
Inductive later (r : resource) (st : catalog) : catalog → Prop :=
| later_now : later r st st
| later_call c st' : later r st st' → creates c ≠ Some r → later r st (next c st').

End Serve.

End Server.

(** ** Observing the server at each call *)

(** Any server, with a record of every call it received and the state it
    was in when the call arrived.  The answers are those of [serve]. *)
Definition recording {St} (serve : ∀ c : call, St → (client_error + resp c) * St)
    (c : call) (s : St * list (call * St))
    : (client_error + resp c) * (St * list (call * St)) :=
  let (answer, st) := serve c s.1 in
  (answer, (st, s.2 ++ [(c, s.1)])).

(** ** What a run looks like *)

(** No call in the list raised. *)
Definition all_returned (l : list entry) : Prop := Forall (λ e, failed e = None) l.

(** The log of a run is an initial segment of the script, and the run ended
    in one of four ways: every cell ran; a call raised, as the last call
    made, and its error is the exception; the version gate raised; the
    subscript of the metrics raised. *)
Definition follows_script {St} (env : Environ.t) (o : outcome St handles) : Prop :=
  ∃ G labels pipe model,
    made <$> log (final o)
    = take (length (log (final o))) (script env G labels pipe model)
    ∧ match o with
      | Returned h s =>
          h = {| var_G := G; var_pipe := pipe; var_model := model |}
          ∧ length (log s) = 21
          ∧ all_returned (log s)
      | Raised (ClientError ce) s =>
          ∃ before e,
            log s = before ++ [e]
            ∧ all_returned before
            ∧ failed e = Some ce
            ∧ in_cell e = cell s
      | Raised AssertionError s =>
          all_returned (log s) ∧ length (log s) = 2 ∧ cell s = "3c2a8de1"
      | Raised (KeyError key) s =>
          all_returned (log s) ∧ length (log s) = 16
          ∧ key = "F1_MACRO" ∧ cell s = "c9a4f264"
      end.

(** ** Concrete runs *)

(** A server instance to run the notebook against: placeholder algorithms,
    and three starting catalogs. *)
Module Example.

Definition overview (name : string) (g : Server.projection) : string :=
  "Graph(" +:+ name +:+ ")".

(** Reports an F1 score and, as winner, the lower end of the first
    candidate's penalty range. *)
Definition fit (g : Server.projection) (p : Server.pipeline) (config : kwargs)
    : Server.model :=
  {| Server.winner :=
       match Server.candidates p with
       | (kind, kw) :: _ =>
           [("methodName", VStr kind);
            ("penalty", match kwargs_get kw "penalty" with
                        | Some (PFloatRange lo _) => VFloat lo
                        | Some (PFloat f) => VFloat f
                        | _ => VNone
                        end)]
       | [] => []
       end;
     Server.scores := [("F1_MACRO", VDict [("test", VFloat 0.5)])] |}.

Definition infer (t : Server.model) (g : Server.projection) (config : kwargs)
    : DataFrame :=
  {| columns := ["nodeId"; "predictedClass"; "predictedProbabilities"];
     rows := [[VInt 0; VInt 1; VList [VFloat 0.25; VFloat 0.75]]] |}.

Definition serve := Server.serve overview fit infer.

Definition fresh (v : ServerVersion.t) : Server.catalog :=
  {| Server.online := true; Server.version := v;
     Server.graphs := ∅; Server.pipelines := ∅; Server.models := ∅ |}.

Definition current : Server.catalog := fresh (ServerVersion.make 2 5 1).
Definition outdated : Server.catalog := fresh (ServerVersion.make 2 4 9).
Definition unreachable : Server.catalog :=
  {| Server.online := false; Server.version := ServerVersion.make 2 5 1;
     Server.graphs := ∅; Server.pipelines := ∅; Server.models := ∅ |}.

(** Environments: nothing set; everything set; a user name set to the
    empty string. *)
Definition env_unset : Environ.t := ∅.

Definition env_full : Environ.t :=
  <["NEO4J_URI" := "neo4j://db.example:7687"]>
    (<["NEO4J_DB" := "movies"]>
       (<["NEO4J_USER" := "neo4j"]>
          (<["NEO4J_PASSWORD" := "secret"]> ∅))).

Definition env_empty_user : Environ.t :=
  <["NEO4J_USER" := ""]> (<["NEO4J_PASSWORD" := "secret"]> ∅).

(** The complete run against the up-to-date server, observed call by
    call, and the catalog in which the training call arrived. *)
Definition run : outcome (Server.catalog * list (call * Server.catalog)) handles :=
  notebook (recording serve) env_unset (init (current, [])).

Definition observed : list (call * Server.catalog) := (server (final run)).2.

Definition at_training : Server.catalog := default current (snd <$> observed !! 14).

(** The catalog once the dataset is loaded, and later: the graph dropped
    and a pipeline created. *)
Definition G : Graph := {| Graph_name := "imdb" |}.
Definition loaded : Server.catalog := Server.next overview fit infer graph_load_imdb current.
Definition afterwards : Server.catalog :=
  Server.next overview fit infer (pipeline_nodeClassification_create "other-pipe")
    (Server.next overview fit infer (Graph_drop G) loaded).

End Example.

(** ** The answers a run received *)

(** An answer without its dependent type: the error raised, or the value
    returned, by kind. *)
Inductive answered : Type :=
| GotError (e : client_error)
| GotSession
| GotVersion (v : ServerVersion.t)
| GotGraph (G : Graph)
| GotText (s : string)
| GotNames (l : list string)
| GotProperties (l : list (string * list string))
| GotPipeline (pipe : NCPipeline) (info : Series)
| GotModel (model : NCModel) (info : Series)
| GotSeries (s : Series)
| GotFrame (df : DataFrame).

Definition or_error {A} (got : A → answered) (a : client_error + A) : answered :=
  match a with
  | inl e => GotError e
  | inr r => got r
  end.

Definition classify (c : call) : client_error + resp c → answered :=
  match c with
  | GraphDataScience _ _ _ => or_error (λ _, GotSession)
  | server_version => or_error GotVersion
  | graph_load_imdb => or_error GotGraph
  | Graph_str _ => or_error GotText
  | Graph_node_labels _ => or_error GotNames
  | Graph_relationship_types _ => or_error GotNames
  | Graph_node_properties _ => or_error GotProperties
  | Graph_drop _ => or_error GotSeries
  | pipeline_nodeClassification_create _ => or_error (λ r, GotPipeline r.1 r.2)
  | configureSplit _ _ => or_error GotSeries
  | addNodeProperty _ _ _ => or_error GotSeries
  | selectFeatures _ _ => or_error GotSeries
  | addLogisticRegression _ _ => or_error GotSeries
  | addRandomForest _ _ => or_error GotSeries
  | train _ _ _ => or_error (λ r, GotModel r.1 r.2)
  | NCPipeline_drop _ => or_error GotSeries
  | metrics _ => or_error GotSeries
  | best_parameters _ => or_error GotSeries
  | predict_stream _ _ _ => or_error GotFrame
  | NCModel_drop _ => or_error GotSeries
  end.

(** The error of an answer, if it is one. *)
Definition error_of (a : answered) : option client_error :=
  match a with
  | GotError e => Some e
  | _ => None
  end.

(** Any server, keeping a transcript of the calls it received and what it
    answered.  The answers are those of [serve]. *)
Definition transcribing {St} (serve : ∀ c : call, St → (client_error + resp c) * St)
    (c : call) (s : St * list (call * answered))
    : (client_error + resp c) * (St * list (call * answered)) :=
  let (answer, st) := serve c s.1 in
  (answer, (st, s.2 ++ [(c, classify c answer)])).


(** The three cells that release the handles. *)
Definition cleanup_cells : list string := ["9241d9ff"; "94b96625"; "a85e1799"].

(** Is the call a release call? *)
Definition releases (c : call) : bool :=
  match c with
  | Graph_drop _ | NCPipeline_drop _ | NCModel_drop _ => true
  | _ => false
  end.

(** The graph handle a call is made on or is given. *)
Definition graph_of (c : call) : option Graph :=
  match c with
  | Graph_str G | Graph_node_labels G | Graph_relationship_types G
  | Graph_node_properties G | Graph_drop G | train _ G _ | predict_stream _ G _ => Some G
  | _ => None
  end.

(** The pipeline handle a call is made on. *)
Definition pipeline_of (c : call) : option NCPipeline :=
  match c with
  | configureSplit pipe _ | addNodeProperty pipe _ _ | selectFeatures pipe _
  | addLogisticRegression pipe _ | addRandomForest pipe _ | train pipe _ _
  | NCPipeline_drop pipe => Some pipe
  | _ => None
  end.

(** The model handle a call is made on. *)
Definition model_of (c : call) : option NCModel :=
  match c with
  | metrics model | best_parameters model | predict_stream model _ _
  | NCModel_drop model => Some model
  | _ => None
  end.

(** The transcript a run leaves, and the answers alone. *)
Definition transcript {St A} (o : outcome (St * list (call * answered)) A)
    : list (call * answered) :=
  (server (final o)).2.

Definition answers {St A} (o : outcome (St * list (call * answered)) A) : list answered :=
  (transcript o).*2.

(** The line that the [print] statement number [j] shows, given the answers
    of the run: each statement formats the answer of one call (the calls
    number 3, 4, 5, 6, 15, 16 and 17 of the script); the fifth subscripts the
    metrics with ['F1_MACRO'], the last takes [head()] of the predictions. *)
Definition expected_line (l : list answered) (j : nat) : option printed :=
  match j with
  | 0 => match l !! 3 with
         | Some (GotText s) => Some {| text := "Overview of G: "; value := ShownStr s |}
         | _ => None
         end
  | 1 => match l !! 4 with
         | Some (GotNames n) => Some {| text := "Node labels in G: "; value := ShownStrs n |}
         | _ => None
         end
  | 2 => match l !! 5 with
         | Some (GotNames n) =>
             Some {| text := "Relationship types in G: "; value := ShownStrs n |}
         | _ => None
         end
  | 3 => match l !! 6 with
         | Some (GotProperties p) =>
             Some {| text := "Node properties per label:"; value := ShownProperties p |}
         | _ => None
         end
  | 4 => match l !! 15 with
         | Some (GotSeries sc) =>
             (λ v, {| text := "Accuracy scores of trained model:"; value := ShownValue v |})
               <$> Series_getitem sc "F1_MACRO"
         | _ => None
         end
  | 5 => match l !! 16 with
         | Some (GotSeries s) =>
             Some {| text := "Winning ML algorithm candidate config:";
                     value := ShownSeries s |}
         | _ => None
         end
  | 6 => match l !! 17 with
         | Some (GotFrame df) =>
             Some {| text := "First predictions of unclassified movie nodes:";
                     value := ShownFrame (DataFrame_head df) |}
         | _ => None
         end
  | _ => None
  end.

(** What a transcribed run looks like: the log follows the script, the
    transcript and the log agree, the handles and labels of the script are
    the ones answered, every printed line shows an answer, and the subscript
    of the metrics decides whether the run goes on. *)
Definition accounted {St} (env : Environ.t)
    (o : outcome (St * list (call * answered)) handles) : Prop :=
  ∃ G labels pipe model,
    made <$> log (final o) = take (length (log (final o))) (script env G labels pipe model)
    ∧ (transcript o).*1 = issued <$> log (final o)
    ∧ error_of <$> answers o = failed <$> log (final o)
    ∧ (∀ a, answers o !! 2 = Some a → error_of a = None → a = GotGraph G)
    ∧ (∀ a, answers o !! 7 = Some a → error_of a = None → ∃ info, a = GotPipeline pipe info)
    ∧ (∀ a, answers o !! 9 = Some a → error_of a = None → a = GotNames labels)
    ∧ (∀ a, answers o !! 14 = Some a → error_of a = None → ∃ info, a = GotModel model info)
    ∧ (∀ j line, stdout (final o) !! j = Some line → expected_line (answers o) j = Some line)
    ∧ (∀ sc, answers o !! 15 = Some (GotSeries sc) →
         match Series_getitem sc "F1_MACRO" with
         | Some _ => (17 ≤ length (log (final o)))%nat
         | None =>
             o = Raised (KeyError "F1_MACRO") (final o)
             ∧ length (log (final o)) = 16
             ∧ length (stdout (final o)) = 4
         end)
    ∧ match o with
      | Returned h s =>
          h = {| var_G := G; var_pipe := pipe; var_model := model |}
          ∧ length (log s) = 21
          ∧ length (stdout s) = 7
      | Raised _ _ => True
      end.

(** Runs for the further properties: the complete run against the
    up-to-date server with its transcript; a server whose models carry no
    scores. *)
Module Transcribed.

Definition run : outcome (Server.catalog * list (call * answered)) handles :=
  notebook (transcribing Example.serve) Example.env_unset (init (Example.current, [])).

Definition pipe : NCPipeline := {| NCPipeline_name := "genre-predictor-pipe" |}.
Definition model : NCModel := {| NCModel_name := "genre-predictor-model" |}.


Definition imdb_labels : list string := ["Movie"; "Actor"; "Director"; "UnclassifiedMovie"].

Definition hashgnn_config : kwargs :=
  [("mutateProperty", PStr "embedding");
   ("iterations", PInt 4);
   ("heterogeneous", PBool true);
   ("embeddingDensity", PInt 512);
   ("neighborInfluence", PFloat 0.7);
   ("featureProperties", PStrs ["plot_keywords"]);
   ("randomSeed", PInt 41);
   ("contextNodeLabels", PStrs imdb_labels)].

Definition fit_without_scores (g : Server.projection) (p : Server.pipeline)
    (config : kwargs) : Server.model :=
  {| Server.winner := []; Server.scores := [] |}.

Definition serve_without_scores :=
  Server.serve Example.overview fit_without_scores Example.infer.


End Transcribed.

(** The catalog after loading the dataset, releasing the graph handle and
    loading the dataset again. *)
Module Reload.

Definition released : Server.catalog :=
  Server.next Example.overview Example.fit Example.infer (Graph_drop Example.G)
    Example.loaded.

Definition reloaded : Server.catalog :=
  Server.next Example.overview Example.fit Example.infer graph_load_imdb released.

End Reload.

(** * Properties *)

(** ** Auxiliary facts *)

Lemma truthy_spec v : Environ.truthy v = true ↔ ∃ s, v = Some s ∧ s ≠ "".
Proof.
  destruct v as [s|]; simpl.
  - rewrite negb_true_iff. split.
    + intros Hs. exists s. split; [done|]. intros ->. by rewrite String.eqb_refl in Hs.
    + intros (s' & [= <-] & Hne). by apply String.eqb_neq.
  - split; [done|]. by intros (s & ? & _).
Qed.

Lemma ServerVersion_ge_spec a b :
  ServerVersion.ge a b = true ↔
    (ServerVersion.major b < ServerVersion.major a
     ∨ (ServerVersion.major a = ServerVersion.major b
        ∧ ServerVersion.minor b < ServerVersion.minor a)
     ∨ (ServerVersion.major a = ServerVersion.major b
        ∧ ServerVersion.minor a = ServerVersion.minor b
        ∧ ServerVersion.patch b ≤ ServerVersion.patch a))%Z.
Proof.
  unfold ServerVersion.ge, ServerVersion.lt.
  destruct a as [a1 a2 a3], b as [b1 b2 b3]; simpl.
  destruct (Z.eqb_spec a1 b1), (Z.eqb_spec a2 b2); simpl;
    rewrite negb_true_iff, Z.ltb_ge; lia.
Qed.

Lemma ServerVersion_ge_total a b :
  ServerVersion.ge a b = true ∨ ServerVersion.ge b a = true.
Proof. rewrite !ServerVersion_ge_spec. lia. Qed.

(** ** Connection parameters *)

Lemma NEO4J_AUTH_Some env u p :
  NEO4J_AUTH env = Some (u, p) ↔
    ∃ user password,
      env !! "NEO4J_USER" = Some user ∧ env !! "NEO4J_PASSWORD" = Some password
      ∧ user ≠ "" ∧ password ≠ "" ∧ u = Some user ∧ p = Some password.
Proof.
  unfold NEO4J_AUTH, Environ.get.
  destruct (Environ.truthy (env !! "NEO4J_USER")) eqn:Hu;
    destruct (Environ.truthy (env !! "NEO4J_PASSWORD")) eqn:Hp; simpl.
  - apply truthy_spec in Hu as (user & Hu & ?), Hp as (password & Hp & ?).
    rewrite Hu, Hp. split.
    + intros [= <- <-]. by exists user, password.
    + intros (? & ? & [= <-] & [= <-] & _ & _ & -> & ->). done.
  - split; [done|]. intros (user & password & _ & Hp' & _ & ? & _).
    assert (Environ.truthy (env !! "NEO4J_PASSWORD") = true); [|congruence].
    apply truthy_spec. eauto.
  - split; [done|]. intros (user & password & Hu' & _ & ? & _).
    assert (Environ.truthy (env !! "NEO4J_USER") = true); [|congruence].
    apply truthy_spec. eauto.
  - split; [done|]. intros (user & password & Hu' & _ & ? & _).
    assert (Environ.truthy (env !! "NEO4J_USER") = true); [|congruence].
    apply truthy_spec. eauto.
Qed.

(** C3, as stated, fails: with [NEO4J_USER] set to the empty string and
    [NEO4J_PASSWORD] set, both variables are set and yet the session is
    created with [auth=None]. *)
Lemma auth_none_though_both_set :
  Example.env_empty_user !! "NEO4J_USER" = Some ""
  ∧ Example.env_empty_user !! "NEO4J_PASSWORD" = Some "secret"
  ∧ NEO4J_AUTH Example.env_empty_user = None
  ∧ log (final (cell_51c1426e Example.serve Example.env_empty_user
                  (init Example.current)))
    = [ {| in_cell := "51c1426e";
           issued := GraphDataScience "bolt://localhost:7687" None "neo4j";
           failed := None |} ].
Proof. repeat split; by vm_compute. Qed.

(** C3 (amended): the server URI is [NEO4J_URI] or, when unset,
    "bolt://localhost:7687"; the database name is [NEO4J_DB] or, when unset,
    "neo4j"; the credential pair is passed to the session constructor if and
    only if [NEO4J_USER] and [NEO4J_PASSWORD] are both set to non-empty
    strings, and otherwise the session is created with [auth=None]. *)
Theorem connection_parameters {St} (serve : ∀ c : call, St → (client_error + resp c) * St)
    (env : Environ.t) (s0 : St) :
  NEO4J_URI env = default "bolt://localhost:7687" (env !! "NEO4J_URI")
  ∧ NEO4J_DB env = default "neo4j" (env !! "NEO4J_DB")
  ∧ (∀ u p,
       NEO4J_AUTH env = Some (u, p) ↔
         ∃ user password,
           env !! "NEO4J_USER" = Some user ∧ env !! "NEO4J_PASSWORD" = Some password
           ∧ user ≠ "" ∧ password ≠ "" ∧ u = Some user ∧ p = Some password)
  ∧ (NEO4J_AUTH env = None ↔
       ¬ ∃ user password,
           env !! "NEO4J_USER" = Some user ∧ env !! "NEO4J_PASSWORD" = Some password
           ∧ user ≠ "" ∧ password ≠ "")
  ∧ issued <$> log (final (cell_51c1426e serve env (init s0)))
    = [GraphDataScience (NEO4J_URI env) (NEO4J_AUTH env) (NEO4J_DB env)].
Proof.
  split_and!.
  - unfold NEO4J_URI, Environ.get_default. by destruct (env !! _).
  - unfold NEO4J_DB, Environ.get_default. by destruct (env !! _).
  - apply NEO4J_AUTH_Some.
  - destruct (NEO4J_AUTH env) as [[u p]|] eqn:Hauth.
    + apply NEO4J_AUTH_Some in Hauth as (user & password & ? & ? & ? & ? & _).
      split; [done|]. intros []. eauto 10.
    + split; [|done]. intros _ (user & password & ? & ? & ? & ?).
      assert (NEO4J_AUTH env = Some (Some user, Some password)); [|congruence].
      apply NEO4J_AUTH_Some. eauto 10.
  - unfold cell_51c1426e, bind, enter, invoke; simpl.
    by destruct (serve _ s0) as [[e|[]] s1].
Qed.

(** ** The version gate *)

(** C1: the setup cells complete if and only if the constructor call
    returns and the server reports a version at or above 2.5.0; when the
    constructor raises, that error ends the run after that one call; when the
    reported version is below 2.5.0, the run ends in cell 3c2a8de1 with the
    [AssertionError] of the gate, after exactly the two calls made so far. *)
Theorem session_establishment {St} (serve : ∀ c : call, St → (client_error + resp c) * St)
    (env : Environ.t) (s0 : St) :
  let connect := GraphDataScience (NEO4J_URI env) (NEO4J_AUTH env) (NEO4J_DB env) in
  ((∃ s, setup serve env (init s0) = Returned tt s) ↔
     ∃ s1 v s2,
       serve connect s0 = (inr tt, s1)
       ∧ serve server_version s1 = (inr v, s2)
       ∧ ServerVersion.ge v (ServerVersion.make 2 5 0) = true)
  ∧ (∀ e s1,
       serve connect s0 = (inl e, s1) →
       notebook serve env (init s0)
       = Raised (ClientError e)
           {| server := s1;
              log := [ {| in_cell := "51c1426e"; issued := connect; failed := Some e |} ];
              stdout := []; cell := "51c1426e" |})
  ∧ (∀ s1 v s2,
       serve connect s0 = (inr tt, s1) →
       serve server_version s1 = (inr v, s2) →
       ServerVersion.ge v (ServerVersion.make 2 5 0) = false →
       notebook serve env (init s0)
       = Raised AssertionError
           {| server := s2;
              log := [ {| in_cell := "51c1426e"; issued := connect; failed := None |};
                       {| in_cell := "3c2a8de1"; issued := server_version; failed := None |} ];
              stdout := []; cell := "3c2a8de1" |}).
Proof.
  intros connect. split_and!.
  - unfold setup, cell_fb62e54d, cell_1730fe57, cell_51c1426e, cell_3c2a8de1,
      minimum_version, assert, bind, enter, invoke, ret, raise; simpl.
    fold connect.
    destruct (serve connect s0) as [[e|[]] s1] eqn:Hconnect; simpl.
    { split; [by intros [s ?]|]. by intros (? & ? & ? & ? & _). }
    destruct (serve server_version s1) as [[e|v] s2] eqn:Hversion; simpl.
    { split; [by intros [s ?]|]. intros (? & ? & ? & [= <-] & Hv & _). congruence. }
    destruct (ServerVersion.ge v _) eqn:Hge.
    + split; [|by eauto]. intros _. by exists s1, v, s2.
    + split; [by intros [s ?]|]. intros (? & ? & ? & [= <-] & Hv & Hge'). congruence.
  - intros e s1 Hconnect.
    unfold notebook, setup, cell_fb62e54d, cell_1730fe57, cell_51c1426e,
      bind, enter, invoke; simpl.
    fold connect. by rewrite Hconnect.
  - intros s1 v s2 Hconnect Hversion Hge.
    unfold notebook, setup, cell_fb62e54d, cell_1730fe57, cell_51c1426e, cell_3c2a8de1,
      minimum_version, assert, bind, enter, invoke, raise; simpl.
    fold connect. rewrite Hconnect; simpl. rewrite Hversion; simpl. by rewrite Hge.
Qed.

(** ** Every run follows the script *)

Ltac unfold_cells :=
  unfold notebook, setup, load, configure, train_and_predict, cleanup,
    cell_fb62e54d, cell_1730fe57, cell_51c1426e, cell_3c2a8de1, cell_156843c3,
    cell_478eaed5, cell_095c5def, cell_48d11361, cell_9aacdd72, cell_5e254efe,
    cell_30ff6713, cell_8bccd326, cell_62fca4ac, cell_89b8ad98, cell_c9a4f264,
    cell_df73b21c, cell_d4419924, cell_9241d9ff, cell_94b96625, cell_a85e1799,
    minimum_version, assert, getitem, bind, enter, invoke, print, ret, raise.

(** One step of the run: case analysis on the answer to the next call, on
    the version comparison, or on the subscript. *)
Ltac next_answer serve :=
  lazymatch goal with
  | |- context [if ServerVersion.ge ?v ?m then _ else _] =>
      destruct (ServerVersion.ge v m); cbn -[app take script] in *
  | |- context [match Series_getitem ?s ?k with _ => _ end] =>
      destruct (Series_getitem s k); cbn -[app take script] in *
  | |- context [serve ?c ?s] =>
      let e := fresh "e" in
      let r := fresh "r" in
      let st := fresh "st" in
      destruct (serve c s) as [[e|r] st]; cbn -[app take script] in *;
      try lazymatch type of r with
          | (_ * _)%type => destruct r as [? ?]; cbn -[app take script] in *
          end
  end.

Ltac choose T fallback :=
  first [ match goal with x : T |- _ => exists x end | exists fallback ].

Ltac all_returned_tac :=
  unfold all_returned; repeat (apply Forall_app_2); repeat constructor.

Ltac ends_as_scripted :=
  choose Graph {| Graph_name := "" |};
  choose (list string) (@nil string);
  choose NCPipeline {| NCPipeline_name := "" |};
  choose NCModel {| NCModel_name := "" |};
  split; [reflexivity|];
  first
    [ eexists _, _; split_and!; [reflexivity | all_returned_tac | reflexivity | reflexivity]
    | split_and!; first [reflexivity | all_returned_tac] ].

Lemma notebook_follows_script {St}
    (serve : ∀ c : call, St → (client_error + resp c) * St) (env : Environ.t) (s0 : St) :
  follows_script env (notebook serve env (init s0)).
Proof.
  unfold_cells. cbn -[app take script].
  repeat next_answer serve.
  all: unfold follows_script; cbn -[app take script].
  all: ends_as_scripted.
Qed.

Lemma all_returned_lookup (l : list entry) i e ce :
  all_returned l → l !! i = Some e → failed e = Some ce → False.
Proof.
  intros Hall Hi Hfailed. apply (Forall_lookup_1 _ _ _ _ Hall) in Hi. congruence.
Qed.

(** The entry at position [i] of a log that begins the script is the
    script's call number [i]. *)
Lemma scripted_lookup (l : list entry) (calls : list (string * call)) i e :
  made <$> l = take (length l) calls → l !! i = Some e → calls !! i = Some (made e).
Proof.
  intros Hl Hi.
  assert ((made <$> l) !! i = Some (made e)) as Hm by by rewrite list_lookup_fmap, Hi.
  rewrite Hl in Hm. by apply lookup_take_Some in Hm as [? _].
Qed.

(** A call that raised is the last call of the log. *)
Lemma failed_entry_is_last {St}
    (serve : ∀ c : call, St → (client_error + resp c) * St) (env : Environ.t) (s0 : St)
    i e ce :
  let o := notebook serve env (init s0) in
  log (final o) !! i = Some e → failed e = Some ce →
  S i = length (log (final o))
  ∧ o = Raised (ClientError ce) (final o)
  ∧ cell (final o) = in_cell e.
Proof.
  intros o Hi Hfailed.
  destruct (notebook_follows_script serve env s0) as (G & labels & pipe & model & _ & Hend).
  fold o in Hend.
  destruct o as [h s|[| |ce'] s]; simpl in *.
  - destruct Hend as (_ & _ & Hall). destruct (all_returned_lookup _ _ _ _ Hall Hi Hfailed).
  - destruct Hend as (Hall & _). destruct (all_returned_lookup _ _ _ _ Hall Hi Hfailed).
  - destruct Hend as (Hall & _). destruct (all_returned_lookup _ _ _ _ Hall Hi Hfailed).
  - destruct Hend as (before & e' & Hlog & Hall & Hfailed' & Hcell).
    rewrite Hlog in Hi |- *. rewrite length_app; simpl.
    apply lookup_snoc_Some in Hi as [[Hlt Hi]|[-> ->]].
    + destruct (all_returned_lookup _ _ _ _ Hall Hi Hfailed).
    + split_and!; [lia| congruence | done].
Qed.

(** ** Errors end the run *)

(** The version gate is performed: the run ends with [AssertionError]
    exactly when the constructor and [server_version()] have returned and
    the version is below 2.5.0, and then it ends in cell 3c2a8de1 with those
    two calls made and nothing printed. *)
Lemma gate_raises_exactly_below_minimum {St}
    (serve : ∀ c : call, St → (client_error + resp c) * St) (env : Environ.t) (s0 : St) s :
  let connect := GraphDataScience (NEO4J_URI env) (NEO4J_AUTH env) (NEO4J_DB env) in
  notebook serve env (init s0) = Raised AssertionError s ↔
    ∃ s1 v s2,
      serve connect s0 = (inr tt, s1)
      ∧ serve server_version s1 = (inr v, s2)
      ∧ ServerVersion.ge v (ServerVersion.make 2 5 0) = false
      ∧ s = {| server := s2;
               log := [ {| in_cell := "51c1426e"; issued := connect; failed := None |};
                        {| in_cell := "3c2a8de1"; issued := server_version;
                           failed := None |} ];
               stdout := []; cell := "3c2a8de1" |}.
Proof.
  intros connect. unfold_cells. cbn -[app take script]. fold connect.
  destruct (serve connect s0) as [[e|[]] s1] eqn:Hconnect; cbn -[app take script].
  { split; [done|]. by intros (? & ? & ? & ? & _). }
  destruct (serve server_version s1) as [[e|v] s2] eqn:Hversion; cbn -[app take script].
  { split; [done|]. intros (? & ? & ? & [= <-] & Hv & _). congruence. }
  destruct (ServerVersion.ge v _) eqn:Hge; cbn -[app take script].
  - split; [|intros (? & ? & ? & [= <-] & Hv & Hge' & _); congruence].
    clear Hconnect Hversion Hge.
    repeat next_answer serve; discriminate.
  - split.
    + intros [= <-]. by exists s1, v, s2.
    + intros (? & ? & ? & [= <-] & Hv & _ & ->).
      rewrite Hversion in Hv. by injection Hv as _ <-.
Qed.

(** C2: in every run, against every server: a call that raises is the last
    call made, its error is the exception that ends the run, and the run
    ends in the cell that made the call; an exception that does not come
    from a call is the [AssertionError] of the version gate in cell 3c2a8de1
    (or the [KeyError] of the subscript [['F1_MACRO']] in cell c9a4f264);
    and the gate is performed: the run ends with [AssertionError] exactly
    when the constructor and [server_version()] have returned and the
    reported version is below 2.5.0, after those two calls and no other. *)
Theorem errors_propagate {St} (serve : ∀ c : call, St → (client_error + resp c) * St)
    (env : Environ.t) (s0 : St) :
  let o := notebook serve env (init s0) in
  let connect := GraphDataScience (NEO4J_URI env) (NEO4J_AUTH env) (NEO4J_DB env) in
  (∀ i e ce,
     log (final o) !! i = Some e → failed e = Some ce →
     S i = length (log (final o))
     ∧ o = Raised (ClientError ce) (final o)
     ∧ cell (final o) = in_cell e)
  ∧ (∀ x s,
       o = Raised x s →
       (∃ ce e, x = ClientError ce ∧ last (log s) = Some e
                ∧ failed e = Some ce ∧ in_cell e = cell s)
       ∨ (x = AssertionError ∧ cell s = "3c2a8de1" ∧ all_returned (log s))
       ∨ (x = KeyError "F1_MACRO" ∧ cell s = "c9a4f264" ∧ all_returned (log s)))
  ∧ (∀ s,
       o = Raised AssertionError s ↔
         ∃ s1 v s2,
           serve connect s0 = (inr tt, s1)
           ∧ serve server_version s1 = (inr v, s2)
           ∧ ServerVersion.ge v (ServerVersion.make 2 5 0) = false
           ∧ s = {| server := s2;
                    log := [ {| in_cell := "51c1426e"; issued := connect;
                                failed := None |};
                             {| in_cell := "3c2a8de1"; issued := server_version;
                                failed := None |} ];
                    stdout := []; cell := "3c2a8de1" |}).
Proof.
  intros o connect. split_and!.
  - apply failed_entry_is_last.
  - destruct (notebook_follows_script serve env s0)
      as (G & labels & pipe & model & _ & Hend).
    fold o in Hend. intros x s ->. simpl in Hend. destruct x as [| key |ce].
    + right; left. by destruct Hend as (? & _ & ?).
    + right; right. by destruct Hend as (? & _ & -> & ?).
    + left. destruct Hend as (before & e & -> & _ & ? & ?).
      exists ce, e. by rewrite last_snoc.
  - intros s. apply gate_raises_exactly_below_minimum.
Qed.

(** The call that trains is call number 14 of the script, and the calls
    that select the feature and add the two candidates come before it. *)
Lemma script_train env G labels pipe model i cellid pipe' G' config :
  script env G labels pipe model !! i = Some (cellid, train pipe' G' config) →
  i = 14 ∧ pipe' = pipe ∧ G' = G ∧ config = train_config.
Proof.
  intros Hi.
  do 21 (destruct i as [|i]; [by simplify_eq/=|]). done.
Qed.

Lemma configuration_precedes_train_in_log {St}
    (serve : ∀ c : call, St → (client_error + resp c) * St) (env : Environ.t) (s0 : St)
    i e pipe G config :
  let l := log (final (notebook serve env (init s0))) in
  l !! i = Some e → issued e = train pipe G config →
  ∃ j k m ej ek em lr rf,
    j < i ∧ k < i ∧ m < i
    ∧ l !! j = Some ej ∧ issued ej = selectFeatures pipe "embedding" ∧ failed ej = None
    ∧ l !! k = Some ek ∧ issued ek = addLogisticRegression pipe lr ∧ failed ek = None
    ∧ l !! m = Some em ∧ issued em = addRandomForest pipe rf ∧ failed em = None.
Proof.
  intros l Hi Htrain.
  destruct (notebook_follows_script serve env s0) as (G0 & labels & pipe0 & model & Hl & _).
  pose proof (failed_entry_is_last serve env s0) as Hlast. simpl in Hlast.
  fold l in Hl, Hlast.
  pose proof (scripted_lookup _ _ _ _ Hl Hi) as Hs.
  unfold made in Hs. rewrite Htrain in Hs.
  apply script_train in Hs as (-> & -> & -> & ->).
  pose proof (lookup_lt_Some _ _ _ Hi) as Hlen.
  assert (∀ n c, n < 14 → script env G0 labels pipe0 model !! n = Some c →
            ∃ en, l !! n = Some en ∧ issued en = c.2 ∧ failed en = None) as Hbefore.
  { intros n c Hn Hc.
    destruct (lookup_lt_is_Some_2 l n) as [en Hen]; [lia|].
    exists en. pose proof (scripted_lookup _ _ _ _ Hl Hen) as Hs.
    rewrite Hc in Hs. injection Hs as ->. split_and!; [done..|].
    destruct (failed en) as [ce|] eqn:Hf; [|done].
    destruct (Hlast _ _ _ Hen Hf) as (? & _). lia. }
  destruct (Hbefore 11 _ ltac:(lia) eq_refl) as (ej & ? & ? & ?).
  destruct (Hbefore 12 _ ltac:(lia) eq_refl) as (ek & ? & ? & ?).
  destruct (Hbefore 13 _ ltac:(lia) eq_refl) as (em & ? & ? & ?).
  exists 11, 12, 13, ej, ek, em. eexists _, _. split_and!; (lia || done).
Qed.

(** The arguments of the logged calls are the ones written in the cells:
    the split fraction, the seeds, the two ranges. *)
Lemma logged_arguments {St}
    (serve : ∀ c : call, St → (client_error + resp c) * St) (env : Environ.t) (s0 : St) e :
  e ∈ log (final (notebook serve env (init s0))) →
  match issued e with
  | configureSplit _ config => config = [("testFraction", PFloat 0.796)]
  | addNodeProperty _ procedure config =>
      procedure = "hashgnn" ∧ kwargs_get config "randomSeed" = Some (PInt 41)
  | addLogisticRegression _ config =>
      kwargs_get config "penalty" = Some (PFloatRange 0.1 1.0)
  | addRandomForest _ config =>
      kwargs_get config "minSplitSize" = Some (PIntRange 2 100)
  | train _ _ config =>
      config = train_config ∧ kwargs_get config "randomSeed" = Some (PInt 42)
  | predict_stream _ _ config =>
      kwargs_get config "targetNodeLabels" = Some (PStrs ["UnclassifiedMovie"])
      ∧ kwargs_get config "includePredictedProbabilities" = Some (PBool true)
  | _ => True
  end.
Proof.
  intros [i Hi]%list_elem_of_lookup_1.
  destruct (notebook_follows_script serve env s0) as (G & labels & pipe & model & Hl & _).
  pose proof (scripted_lookup _ _ _ _ Hl Hi) as Hs. unfold made in Hs.
  do 21 (destruct i as [|i]; [injection Hs as _ <-; by simpl|]).
  done.
Qed.

(** ** Observing a run *)

(** Observing does not change the run: the same calls are logged with the
    same results, the same lines are printed, and the observed calls are the
    logged ones. *)
Lemma recording_same_run {St}
    (serve : ∀ c : call, St → (client_error + resp c) * St) (env : Environ.t) (s0 : St) :
  let plain := notebook serve env (init s0) in
  let observed := notebook (recording serve) env (init (s0, [])) in
  log (final observed) = log (final plain)
  ∧ stdout (final observed) = stdout (final plain)
  ∧ cell (final observed) = cell (final plain)
  ∧ (server (final observed)).1 = server (final plain)
  ∧ (server (final observed)).2.*1 = issued <$> log (final plain).
Proof.
  unfold_cells. unfold recording. cbn -[app take script].
  repeat next_answer serve.
  all: by split_and!.
Qed.

(** ** Training comes after configuration *)

Ltac normalise := cbn -[app take script lookup insert delete elem_of].

(** One step of a run against the catalogs: the lookup of a name just
    registered, or a case analysis on what the run depends on. *)
Ltac catalog_step :=
  first
    [ rewrite lookup_insert_eq; normalise
    | lazymatch goal with
      | |- context [if Server.online ?s then _ else _] =>
          destruct (Server.online s); normalise
      | |- context [if ServerVersion.ge ?v ?m then _ else _] =>
          destruct (ServerVersion.ge v m); normalise
      | |- context [match Series_getitem ?s ?k with _ => _ end] =>
          destruct (Series_getitem s k); normalise
      end ].

Ltac unfold_server :=
  unfold recording, Server.serve, Server.on_graph, Server.on_pipeline,
    Server.on_model, Server.missing.

Lemma pipeline_configured_when_training
    (overview : string → Server.projection → string)
    (fit : Server.projection → Server.pipeline → kwargs → Server.model)
    (infer : Server.model → Server.projection → kwargs → DataFrame)
    (env : Environ.t) (st0 : Server.catalog) pipe G config st :
  let o := notebook (recording (Server.serve overview fit infer)) env (init (st0, [])) in
  (train pipe G config, st) ∈ (server (final o)).2 →
  ∃ p, Server.pipelines st !! NCPipeline_name pipe = Some p
       ∧ Server.features p = ["embedding"]
       ∧ (Server.candidates p).*1 = ["LogisticRegression"; "RandomForest"].
Proof.
  intros o. subst o. unfold_cells. unfold_server. normalise.
  repeat catalog_step.
  all: intros Hin.
  all: repeat (apply elem_of_app in Hin as [Hin|Hin];
               [|apply list_elem_of_singleton in Hin; try discriminate Hin]).
  all: try by apply elem_of_nil in Hin.
  all: injection Hin as -> -> -> ->; normalise.
  all: eexists; split; [apply lookup_insert_eq|done].
Qed.

(** C5: in every run, against every server, a training call in the log is
    preceded by a [selectFeatures] call and by the two add-candidate calls,
    made on the same pipeline handle, and all three returned; and against
    the catalogs of the data model, the pipeline configuration that the
    training call finds holds the selected feature and both candidates. *)
Theorem train_after_configuration :
  (∀ St (serve : ∀ c : call, St → (client_error + resp c) * St) env s0 i e pipe G config,
     let l := log (final (notebook serve env (init s0))) in
     l !! i = Some e → issued e = train pipe G config →
     ∃ j k m ej ek em lr rf,
       j < i ∧ k < i ∧ m < i
       ∧ l !! j = Some ej ∧ issued ej = selectFeatures pipe "embedding" ∧ failed ej = None
       ∧ l !! k = Some ek ∧ issued ek = addLogisticRegression pipe lr ∧ failed ek = None
       ∧ l !! m = Some em ∧ issued em = addRandomForest pipe rf ∧ failed em = None)
  ∧ (∀ overview fit infer env st0 pipe G config st,
       let o := notebook (recording (Server.serve overview fit infer)) env
                  (init (st0, [])) in
       (train pipe G config, st) ∈ (server (final o)).2 →
       ∃ p, Server.pipelines st !! NCPipeline_name pipe = Some p
            ∧ Server.features p ≠ [] ∧ Server.candidates p ≠ []).
Proof.
  split.
  - intros. by eapply configuration_precedes_train_in_log.
  - intros * Hin.
    destruct (pipeline_configured_when_training _ _ _ _ _ _ _ _ _ Hin) as (p & ? & Hf & Hc).
    exists p. split_and!; [done|by rewrite Hf|]. by destruct (Server.candidates p).
Qed.

(** ** The catalogs *)

Section ServerFacts.

Variable overview : string → Server.projection → string.
Variable fit : Server.projection → Server.pipeline → kwargs → Server.model.
Variable infer : Server.model → Server.projection → kwargs → DataFrame.

Abbreviation serve := (Server.serve overview fit infer).
Abbreviation next := (Server.next overview fit infer).

Lemma registered_false r st :
  Server.registered r st = false ↔
    match r with
    | AGraph G => Server.graphs st !! Graph_name G = None
    | APipeline pipe => Server.pipelines st !! NCPipeline_name pipe = None
    | AModel m => Server.models st !! NCModel_name m = None
    end.
Proof.
  destruct r; simpl; rewrite bool_decide_eq_false, <- eq_None_not_Some; done.
Qed.

(** A call on a handle whose name is not registered raises. *)
Lemma unregistered_not_found r c st :
  Server.registered r st = false → receiver c = Some r →
  (serve c st).1 = inl (ResourceNotFound (resource_name r)).
Proof.
  rewrite registered_false. intros Hr Hc.
  destruct c; simplify_eq/=;
    unfold Server.on_graph, Server.on_pipeline, Server.on_model; by rewrite Hr.
Qed.

(** A release call that returns removes the name. *)
Lemma release_unregisters r st :
  Server.returns overview fit infer (release r) st = true →
  Server.registered r (next (release r) st) = false.
Proof.
  unfold Server.returns, Server.next. rewrite registered_false.
  destruct r as [G|pipe|m]; simpl.
  - destruct (Server.graphs st !! Graph_name G); [|done]. intros _. apply lookup_delete_eq.
  - destruct (Server.pipelines st !! NCPipeline_name pipe); [|done]. intros _.
    apply lookup_delete_eq.
  - destruct (Server.models st !! NCModel_name m); [|done]. intros _. apply lookup_delete_eq.
Qed.

(** Only a call that registers the name brings it back. *)
Lemma next_keeps_unregistered r c st :
  Server.creates c ≠ Some r →
  Server.registered r st = false → Server.registered r (next c st) = false.
Proof.
  rewrite !registered_false. unfold Server.next. intros Hc Hr.
  destruct r as [[n]|[n]|[n]]; destruct c; simpl in *;
    unfold Server.on_graph, Server.on_pipeline, Server.on_model, Server.missing;
    repeat (case_match; simpl in * ); try done.
  all: try (rewrite lookup_insert_ne; [done|congruence]).
  all: try (rewrite lookup_delete_ne; [done|congruence]).
  all: by rewrite lookup_delete_eq.
Qed.

Lemma later_keeps_unregistered r st st' :
  Server.later overview fit infer r st st' →
  Server.registered r st = false → Server.registered r st' = false.
Proof.
  induction 1 as [|c st' _ IH Hc]; [done|].
  intros Hr. apply next_keeps_unregistered; auto.
Qed.

(** An accessor call is not a release call. *)
Lemma accessor_is_not_release r c : accessor c = true → c ≠ release r.
Proof. intros Hacc ->. by destruct r. Qed.

(** C9 (amended): once the release call of a graph, pipeline or model
    handle has returned, every later call made on that handle other than a
    release call, so every accessor call, raises "resource not found",
    whatever calls are made in between, as long as none of them registers an
    object under that name again. *)
Theorem released_handle_not_found (r : resource) (st st' : Server.catalog) (c : call) :
  Server.returns overview fit infer (release r) st = true →
  Server.later overview fit infer r (next (release r) st) st' →
  receiver c = Some r →
  c ≠ release r →
  (serve c st').1 = inl (ResourceNotFound (resource_name r)).
Proof.
  intros Hreleased Hlater Hc _.
  apply unregistered_not_found; [|done].
  eapply later_keeps_unregistered; [done|]. by apply release_unregisters.
Qed.

(** The labels and per-label properties that the catalogs hold for the
    example dataset. *)
Lemma imdb_genre_only_on_Movie l ps :
  (l, ps) ∈ Server.node_schema Server.imdb → "genre" ∈ ps ↔ l = "Movie".
Proof.
  unfold Server.imdb; simpl. rewrite !elem_of_cons, elem_of_nil.
  intros [Heq|[Heq|[Heq|[Heq|[]]]]]; injection Heq as -> ->;
    rewrite ?elem_of_cons, ?elem_of_nil; split; try done.
  all: first [by intros _; right; left | by intros [|[]]].
Qed.

(** C4: once the loader call has returned a graph handle, the label set
    read through the handle is exactly Movie, UnclassifiedMovie, Actor,
    Director, the per-label property sets cover those labels, and [genre]
    is among the properties of a label exactly when the label is Movie. *)
Theorem imdb_labels_and_target (st st' : Server.catalog) (G : Graph) :
  serve graph_load_imdb st = (inr G, st') →
  ∃ labels properties,
    (serve (Graph_node_labels G) st').1 = inr labels
    ∧ labels ≡ₚ ["Movie"; "UnclassifiedMovie"; "Actor"; "Director"]
    ∧ (serve (Graph_node_properties G) st').1 = inr properties
    ∧ properties.*1 = labels
    ∧ ∀ l ps, (l, ps) ∈ properties → "genre" ∈ ps ↔ l = "Movie".
Proof.
  simpl. intros [= <- <-].
  exists (Server.node_schema Server.imdb).*1, (Server.node_schema Server.imdb).
  unfold Server.on_graph; simpl. rewrite lookup_insert_eq; simpl.
  split_and!; [done| |done|done|apply imdb_genre_only_on_Movie].
  apply perm_skip. symmetry. apply (Permutation_cons_append ["Actor"; "Director"]).
Qed.

End ServerFacts.

(** ** The notebook against the catalogs *)

(** A complete run prints the labels and per-label properties of the
    example dataset, and leaves none of its three handles registered. *)
Lemma complete_run_on_catalogs
    (overview : string → Server.projection → string)
    (fit : Server.projection → Server.pipeline → kwargs → Server.model)
    (infer : Server.model → Server.projection → kwargs → DataFrame)
    (env : Environ.t) (st0 : Server.catalog) h s :
  notebook (Server.serve overview fit infer) env (init st0) = Returned h s →
  take 4 (stdout s)
  = [ {| text := "Overview of G: ";
         value := ShownStr (overview Server.imdb_name Server.imdb) |};
      {| text := "Node labels in G: ";
         value := ShownStrs ["Movie"; "Actor"; "Director"; "UnclassifiedMovie"] |};
      {| text := "Relationship types in G: ";
         value := ShownStrs ["ACTED_IN"; "DIRECTED_IN"] |};
      {| text := "Node properties per label:";
         value := ShownProperties (Server.node_schema Server.imdb) |} ]
  ∧ Server.registered (AGraph (var_G h)) (server s) = false
  ∧ Server.registered (APipeline (var_pipe h)) (server s) = false
  ∧ Server.registered (AModel (var_model h)) (server s) = false.
Proof.
  rewrite !registered_false.
  unfold_cells. unfold_server. normalise.
  repeat catalog_step.
  all: intros [= <- <-]; normalise.
  all: split_and!; [reflexivity|apply lookup_delete_eq..].
Qed.

(** ** Instances

    The theorems above, applied to the runs of [Example]. *)

Lemma connection_parameters_witness :
  NEO4J_URI Example.env_full = "neo4j://db.example:7687"
  ∧ NEO4J_DB Example.env_full = "movies"
  ∧ NEO4J_AUTH Example.env_full = Some (Some "neo4j", Some "secret")
  ∧ NEO4J_AUTH Example.env_unset = None.
Proof.
  destruct (connection_parameters Example.serve Example.env_full Example.current)
    as (Huri & Hdb & Hauth & _).
  destruct (connection_parameters Example.serve Example.env_unset Example.current)
    as (_ & _ & _ & Hnone & _).
  split_and!.
  - rewrite Huri. reflexivity.
  - rewrite Hdb. reflexivity.
  - apply Hauth. exists "neo4j", "secret". split_and!; done.
  - apply Hnone. intros (user & password & Hu & _). discriminate Hu.
Defined.

Lemma session_establishment_witness :
  (∃ s, setup Example.serve Example.env_unset (init Example.current) = Returned tt s)
  ∧ notebook Example.serve Example.env_unset (init Example.unreachable)
    = Raised (ClientError (ConnectionError "bolt://localhost:7687"))
        {| server := Example.unreachable;
           log := [ {| in_cell := "51c1426e";
                       issued := GraphDataScience "bolt://localhost:7687" None "neo4j";
                       failed := Some (ConnectionError "bolt://localhost:7687") |} ];
           stdout := []; cell := "51c1426e" |}
  ∧ notebook Example.serve Example.env_unset (init Example.outdated)
    = Raised AssertionError
        {| server := Example.outdated;
           log := [ {| in_cell := "51c1426e";
                       issued := GraphDataScience "bolt://localhost:7687" None "neo4j";
                       failed := None |};
                    {| in_cell := "3c2a8de1"; issued := server_version; failed := None |} ];
           stdout := []; cell := "3c2a8de1" |}.
Proof.
  destruct (session_establishment Example.serve Example.env_unset Example.current)
    as (Hiff & _ & _).
  destruct (session_establishment Example.serve Example.env_unset Example.unreachable)
    as (_ & Hraise & _).
  destruct (session_establishment Example.serve Example.env_unset Example.outdated)
    as (_ & _ & Hgate).
  split_and!.
  - apply Hiff.
    exists Example.current, (ServerVersion.make 2 5 1), Example.current.
    split_and!; reflexivity.
  - apply Hraise. reflexivity.
  - apply (Hgate Example.outdated (ServerVersion.make 2 4 9) Example.outdated);
      reflexivity.
Defined.

Lemma errors_propagate_witness :
  (1 = length (log (final (notebook Example.serve Example.env_unset
                              (init Example.unreachable))))
   ∧ notebook Example.serve Example.env_unset (init Example.unreachable)
     = Raised (ClientError (ConnectionError "bolt://localhost:7687"))
         (final (notebook Example.serve Example.env_unset (init Example.unreachable)))
   ∧ cell (final (notebook Example.serve Example.env_unset (init Example.unreachable)))
     = "51c1426e")
  ∧ notebook Example.serve Example.env_unset (init Example.outdated)
    = Raised AssertionError
        {| server := Example.outdated;
           log := [ {| in_cell := "51c1426e";
                       issued := GraphDataScience "bolt://localhost:7687" None "neo4j";
                       failed := None |};
                    {| in_cell := "3c2a8de1"; issued := server_version; failed := None |} ];
           stdout := []; cell := "3c2a8de1" |}.
Proof.
  split.
  - apply (proj1 (errors_propagate Example.serve Example.env_unset Example.unreachable) 0
             {| in_cell := "51c1426e";
                issued := GraphDataScience "bolt://localhost:7687" None "neo4j";
                failed := Some (ConnectionError "bolt://localhost:7687") |});
      reflexivity.
  - apply (proj2 (proj2 (errors_propagate Example.serve Example.env_unset
                           Example.outdated))).
    exists Example.outdated, (ServerVersion.make 2 4 9), Example.outdated.
    split_and!; reflexivity.
Defined.

Lemma imdb_labels_and_target_witness :
  ∃ labels properties,
    (Example.serve (Graph_node_labels Example.G) Example.loaded).1 = inr labels
    ∧ labels ≡ₚ ["Movie"; "UnclassifiedMovie"; "Actor"; "Director"]
    ∧ (Example.serve (Graph_node_properties Example.G) Example.loaded).1 = inr properties
    ∧ properties.*1 = labels
    ∧ ∀ l ps, (l, ps) ∈ properties → "genre" ∈ ps ↔ l = "Movie".
Proof.
  apply (imdb_labels_and_target Example.overview Example.fit Example.infer
           Example.current Example.loaded Example.G).
  reflexivity.
Defined.

Lemma train_after_configuration_witness :
  (train {| NCPipeline_name := "genre-predictor-pipe" |} Example.G train_config,
   Example.at_training) ∈ Example.observed
  ∧ ∃ p, Server.pipelines Example.at_training !! "genre-predictor-pipe" = Some p
         ∧ Server.features p ≠ [] ∧ Server.candidates p ≠ [].
Proof.
  assert ((train {| NCPipeline_name := "genre-predictor-pipe" |} Example.G train_config,
           Example.at_training) ∈ Example.observed) as Hin.
  { apply (list_elem_of_lookup_2 _ 14). vm_compute. reflexivity. }
  split; [exact Hin|].
  exact (proj2 train_after_configuration Example.overview Example.fit Example.infer
           Example.env_unset Example.current _ _ _ _ Hin).
Defined.

Lemma released_handle_not_found_witness :
  (Example.serve (Graph_node_labels Example.G) Example.afterwards).1
  = inl (ResourceNotFound "imdb").
Proof.
  apply (released_handle_not_found Example.overview Example.fit Example.infer
           (AGraph Example.G) Example.loaded Example.afterwards
           (Graph_node_labels Example.G)).
  - vm_compute. reflexivity.
  - apply Server.later_call; [apply Server.later_now|discriminate].
  - reflexivity.
  - by apply accessor_is_not_release.
Defined.

(** C9, as stated, fails: the dataset is loaded, the graph handle released,
    and the dataset loaded again; the handle released before then names the
    new graph, and its accessor [node_labels()] returns the labels. *)
Lemma released_handle_answers_after_reload :
  Server.returns Example.overview Example.fit Example.infer
    (Graph_drop Example.G) Example.loaded = true
  ∧ (Example.serve (Graph_node_labels Example.G) Reload.reloaded).1
    = inr ["Movie"; "Actor"; "Director"; "UnclassifiedMovie"].
Proof. split; vm_compute; reflexivity. Qed.

(** * Further properties of the notebook *)

(** ** A run and its transcript *)

Ltac next_answer_eq serve :=
  lazymatch goal with
  | |- context [if ServerVersion.ge ?v ?m then _ else _] =>
      let E := fresh "Hge" in
      destruct (ServerVersion.ge v m) eqn:E; cbn -[app take script] in *
  | |- context [match Series_getitem ?s ?k with _ => _ end] =>
      let E := fresh "Hkey" in
      destruct (Series_getitem s k) eqn:E; cbn -[app take script] in *
  | |- context [serve ?c ?s] =>
      let e := fresh "e" in
      let r := fresh "r" in
      let st := fresh "st" in
      destruct (serve c s) as [[e|r] st]; cbn -[app take script] in *;
      try lazymatch type of r with
          | (_ * _)%type => destruct r as [? ?]; cbn -[app take script] in *
          end
  end.

(** The line a [print] statement shows, in a run whose output is known. *)
Ltac line_by_line :=
  let j := fresh "j" in
  let line := fresh "line" in
  let Hj := fresh "Hj" in
  intros j line Hj;
  do 7 (destruct j as [|j];
        [simplify_eq/=;
         try match goal with H : Series_getitem _ _ = _ |- _ => rewrite H end;
         reflexivity|]);
  simplify_eq/=.

Ltac metrics_subscript :=
  let sc := fresh "sc" in
  let Hsc := fresh "Hsc" in
  intros sc Hsc; simplify_eq/=;
  match goal with H : Series_getitem _ _ = _ |- _ => rewrite H end;
  first [by split_and! | simpl; lia].

Lemma transcribed_run_accounted {St}
    (serve : ∀ c : call, St → (client_error + resp c) * St) (env : Environ.t) (s0 : St) :
  accounted env (notebook (transcribing serve) env (init (s0, []))).
Proof.
  cut (∀ o, notebook (transcribing serve) env (init (s0, [])) = o → accounted env o).
  { intros H. exact (H _ eq_refl). }
  unfold_cells. unfold transcribing. cbn -[app take script].
  repeat next_answer_eq serve.
  all: intros o <-; unfold accounted, answers, transcript; cbn -[app take script expected_line].
  all: choose Graph {| Graph_name := "" |};
    choose (list string) (@nil string);
    choose NCPipeline {| NCPipeline_name := "" |};
    choose NCModel {| NCModel_name := "" |}.
  all: split_and!; try reflexivity.
  all: try by (intros; simplify_eq/=; eauto).
  all: try line_by_line.
  all: try metrics_subscript.
Qed.

(** The transcript has one answer per logged call. *)
Lemma accounted_lengths {St} env (o : outcome (St * list (call * answered)) handles) :
  accounted env o →
  length (answers o) = length (log (final o))
  ∧ length (transcript o) = length (log (final o)).
Proof.
  intros (G & labels & pipe & model & _ & Hcalls & _).
  assert (length (transcript o) = length (log (final o))) as Hlen.
  { rewrite <- (length_fmap fst (transcript o)), Hcalls. apply length_fmap. }
  split; [|done]. unfold answers. by rewrite length_fmap.
Qed.

(** A call that is not the last one made was answered with a value. *)
Lemma earlier_call_returned {St}
    (serve : ∀ c : call, St → (client_error + resp c) * St) (env : Environ.t) (s0 : St) k i :
  let o := notebook (transcribing serve) env (init (s0, [])) in
  (k < i)%nat → (i < length (log (final o)))%nat →
  ∃ a, answers o !! k = Some a ∧ error_of a = None.
Proof.
  intros o Hk Hi.
  pose proof (transcribed_run_accounted serve env s0) as Hacc. fold o in Hacc.
  destruct (accounted_lengths _ _ Hacc) as [Hlen _].
  destruct Hacc as (G & labels & pipe & model & _ & _ & Herr & _).
  destruct (lookup_lt_is_Some_2 (answers o) k) as [a Ha]; [lia|].
  destruct (lookup_lt_is_Some_2 (log (final o)) k) as [e He]; [lia|].
  exists a. split; [done|].
  assert ((error_of <$> answers o) !! k = (failed <$> log (final o)) !! k) as Hk'
    by by rewrite Herr.
  rewrite !list_lookup_fmap, Ha, He in Hk'. simpl in Hk'. injection Hk' as ->.
  destruct (failed e) as [ce|] eqn:Hfailed; [|done].
  destruct (failed_entry_is_last (transcribing serve) env (s0, []) k e ce He Hfailed)
    as [Hlast _].
  fold o in Hlast. lia.
Qed.

(** The call at a position of the transcript is the script's call. *)
Lemma transcript_in_script {St} env (o : outcome (St * list (call * answered)) handles)
    G labels pipe model i c a :
  made <$> log (final o) = take (length (log (final o))) (script env G labels pipe model) →
  (transcript o).*1 = issued <$> log (final o) →
  transcript o !! i = Some (c, a) →
  (i < length (log (final o)))%nat
  ∧ ∃ cellid, script env G labels pipe model !! i = Some (cellid, c).
Proof.
  intros Hscript Hcalls Hi.
  assert ((transcript o).*1 !! i = Some c) as Hc by by rewrite list_lookup_fmap, Hi.
  rewrite Hcalls in Hc. apply list_lookup_fmap_Some in Hc as (e & -> & He).
  split; [by eapply lookup_lt_Some|].
  exists (in_cell e). by apply (scripted_lookup _ _ _ _ Hscript).
Qed.

(** ** The order of the calls *)

(** X1: in every run, against every server, the calls are made in the order
    of the notebook, each under its cell: the log is an initial segment of
    the script of 21 calls. *)
Theorem calls_follow_script {St}
    (serve : ∀ c : call, St → (client_error + resp c) * St) (env : Environ.t) (s0 : St) :
  let l := log (final (notebook serve env (init s0))) in
  (length l ≤ 21)%nat
  ∧ ∃ G labels pipe model, made <$> l = take (length l) (script env G labels pipe model).
Proof.
  intros l.
  destruct (notebook_follows_script serve env s0) as (G & labels & pipe & model & Hl & _).
  fold l in Hl. split; [|by exists G, labels, pipe, model].
  assert (length l = length (take (length l) (script env G labels pipe model))) as Hlen
    by by rewrite <- Hl, length_fmap.
  rewrite length_take in Hlen. simpl in Hlen. lia.
Qed.

(** ** Release calls *)

Lemma script_release env G labels pipe model i cellid c :
  script env G labels pipe model !! i = Some (cellid, c) →
  (releases c = true → (18 ≤ i)%nat)
  ∧ ((18 ≤ i)%nat → cellid ∈ cleanup_cells).
Proof.
  intros Hi.
  do 18 (destruct i as [|i]; [injection Hi as <- <-; split; [done|lia]|]).
  do 3 (destruct i as [|i];
        [injection Hi as <- <-; split; [lia|intros _; unfold cleanup_cells; rewrite !elem_of_cons; auto]|]).
  done.
Qed.

(** X3: a release call is made only when the eighteen calls before it have
    all returned; so a run that ends with an exception outside the three
    cleanup cells has released nothing. *)
Theorem no_release_after_failure {St}
    (serve : ∀ c : call, St → (client_error + resp c) * St) (env : Environ.t) (s0 : St) :
  let o := notebook serve env (init s0) in
  (∀ i e,
     log (final o) !! i = Some e → releases (issued e) = true →
     (18 ≤ i)%nat ∧ ∀ j e', (j < i)%nat → log (final o) !! j = Some e' → failed e' = None)
  ∧ (∀ x s,
       o = Raised x s → cell s ∉ cleanup_cells →
       Forall (λ e, releases (issued e) = false) (log s)).
Proof.
  intros o.
  destruct (notebook_follows_script serve env s0) as (G & labels & pipe & model & Hl & Hend).
  fold o in Hl, Hend.
  assert (∀ i e, log (final o) !! i = Some e → releases (issued e) = true → (18 ≤ i)%nat) as Hlate.
  { intros i e Hi Hrel. pose proof (scripted_lookup _ _ _ _ Hl Hi) as Hs.
    by apply script_release in Hs as [Hs _]; apply Hs. }
  split.
  - intros i e Hi Hrel. split; [by eapply Hlate|].
    intros j e' Hj Hj'. destruct (failed e') as [ce|] eqn:Hfailed; [|done].
    destruct (failed_entry_is_last serve env s0 j e' ce Hj' Hfailed) as [Hlast _].
    fold o in Hlast. apply lookup_lt_Some in Hi. lia.
  - intros x s Ho Hcell. apply Forall_lookup. intros i e Hi.
    destruct (releases (issued e)) eqn:Hrel; [|done]. exfalso.
    rewrite Ho in Hl, Hend, Hlate; simpl in *.
    pose proof (Hlate i e Hi Hrel) as Hi18. pose proof (lookup_lt_Some _ _ _ Hi) as Hlen.
    destruct x as [| key |ce].
    + destruct Hend as (_ & ? & _). lia.
    + destruct Hend as (_ & ? & _). lia.
    + destruct Hend as (before & e' & Hlog & _ & _ & Hcell').
      assert (log s !! length before = Some e') as Hlast
        by (rewrite Hlog; apply list_lookup_middle; done).
      pose proof (scripted_lookup _ _ _ _ Hl Hlast) as Hs.
      apply script_release in Hs as [_ Hs]. apply Hcell. rewrite <- Hcell'. apply Hs.
      rewrite Hlog, length_app in Hlen. simpl in Hlen. lia.
Qed.

(** ** Where the handles come from *)

Lemma script_handles env G labels pipe model i cellid c :
  script env G labels pipe model !! i = Some (cellid, c) →
  (∀ G', graph_of c = Some G' → G' = G ∧ (2 < i)%nat)
  ∧ (∀ pipe', pipeline_of c = Some pipe' → pipe' = pipe ∧ (7 < i)%nat)
  ∧ (∀ model', model_of c = Some model' → model' = model ∧ (14 < i)%nat).
Proof.
  intros Hi.
  do 21 (destruct i as [|i];
         [injection Hi as <- <-; split_and!; intros ? [= <-]; split; (done || lia)|]).
  done.
Qed.

(** X4: the handle on which a call is made (or which it is given) is the
    one an earlier call of the same run returned: a graph handle is the
    answer of [load_imdb], a pipeline handle the answer of [create], a model
    handle the answer of [train]. *)
Theorem handles_come_from_answers {St}
    (serve : ∀ c : call, St → (client_error + resp c) * St) (env : Environ.t) (s0 : St)
    i c a :
  let o := notebook (transcribing serve) env (init (s0, [])) in
  transcript o !! i = Some (c, a) →
  (∀ G, graph_of c = Some G →
        transcript o !! 2 = Some (graph_load_imdb, GotGraph G))
  ∧ (∀ pipe, pipeline_of c = Some pipe →
        ∃ info, transcript o !! 7
                = Some (pipeline_nodeClassification_create "genre-predictor-pipe",
                        GotPipeline pipe info))
  ∧ (∀ model, model_of c = Some model →
        ∃ info G pipe, transcript o !! 14
                       = Some (train pipe G train_config, GotModel model info)).
Proof.
  intros o Hi.
  pose proof (transcribed_run_accounted serve env s0) as Hacc. fold o in Hacc.
  destruct Hacc as (G0 & labels & pipe0 & model0 & Hscript & Hcalls
                    & _ & HG & Hpipe & _ & Hmodel & _).
  destruct (transcript_in_script _ _ _ _ _ _ _ _ _ Hscript Hcalls Hi) as (Hlen & cellid & Hs).
  apply script_handles in Hs as (HsG & Hspipe & Hsmodel).
  assert (∀ k, (k < i)%nat → ∃ ck ak,
            transcript o !! k = Some (ck, ak) ∧ error_of ak = None
            ∧ (∃ cellk, script env G0 labels pipe0 model0 !! k = Some (cellk, ck)))
    as Hearlier.
  { intros k Hk.
    destruct (earlier_call_returned serve env s0 k i Hk Hlen) as (ak & Hak & Herr).
    unfold answers in Hak. fold o in Hak.
    apply list_lookup_fmap_Some in Hak as ([ck ak'] & -> & Hk').
    exists ck, ak'. split_and!; [done..|].
    by apply (transcript_in_script _ _ _ _ _ _ _ _ _ Hscript Hcalls Hk'). }
  split_and!.
  - intros G HcG. apply HsG in HcG as [-> Hi2].
    destruct (Hearlier 2 Hi2) as (c2 & a2 & H2 & Herr & cell2 & Hs2).
    injection Hs2 as _ <-. rewrite H2. f_equal. f_equal. apply HG; [|done].
    unfold answers. by rewrite list_lookup_fmap, H2.
  - intros pipe Hcp. apply Hspipe in Hcp as [-> Hi7].
    destruct (Hearlier 7 Hi7) as (c7 & a7 & H7 & Herr & cell7 & Hs7).
    injection Hs7 as _ <-. destruct (Hpipe a7) as [info ->]; [|done|by exists info].
    unfold answers. by rewrite list_lookup_fmap, H7.
  - intros model Hcm. apply Hsmodel in Hcm as [-> Hi14].
    destruct (Hearlier 14 Hi14) as (c14 & a14 & H14 & Herr & cell14 & Hs14).
    injection Hs14 as _ <-. destruct (Hmodel a14) as [info ->]; [|done|by exists info, G0, pipe0].
    unfold answers. by rewrite list_lookup_fmap, H14.
Qed.

(** ** What is passed on and what is printed *)

(** X5: the [contextNodeLabels] argument of [addNodeProperty] is the list
    that the call just before it, the second [G.node_labels()] of the run,
    returned; it is read again and not taken from the labels printed
    earlier. *)
Theorem context_labels_are_fresh {St}
    (serve : ∀ c : call, St → (client_error + resp c) * St) (env : Environ.t) (s0 : St)
    i a pipe procedure config :
  let o := notebook (transcribing serve) env (init (s0, [])) in
  transcript o !! i = Some (addNodeProperty pipe procedure config, a) →
  i = 10
  ∧ ∃ G labels,
      transcript o !! 9 = Some (Graph_node_labels G, GotNames labels)
      ∧ kwargs_get config "contextNodeLabels" = Some (PStrs labels).
Proof.
  intros o Hi.
  pose proof (transcribed_run_accounted serve env s0) as Hacc. fold o in Hacc.
  destruct Hacc as (G0 & labels & pipe0 & model0 & Hscript & Hcalls
                    & _ & _ & _ & Hlabels & _).
  destruct (transcript_in_script _ _ _ _ _ _ _ _ _ Hscript Hcalls Hi) as (Hlen & cellid & Hs).
  assert (i = 10 ∧ config = [("mutateProperty", PStr "embedding");
               ("iterations", PInt 4);
               ("heterogeneous", PBool true);
               ("embeddingDensity", PInt 512);
               ("neighborInfluence", PFloat 0.7);
               ("featureProperties", PStrs ["plot_keywords"]);
               ("randomSeed", PInt 41);
               ("contextNodeLabels", PStrs labels)]) as [-> ->].
  { clear -Hs. do 21 (destruct i as [|i]; [by simplify_eq/=|]). done. }
  split; [done|].
  destruct (earlier_call_returned serve env s0 9 10 ltac:(lia) Hlen) as (a9 & Ha9 & Herr).
  fold o in Ha9. rewrite (Hlabels a9 Ha9 Herr) in Ha9.
  unfold answers in Ha9. apply list_lookup_fmap_Some in Ha9 as ([c9 a9'] & Heq & H9).
  simpl in Heq. subst a9'.
  destruct (transcript_in_script _ _ _ _ _ _ _ _ _ Hscript Hcalls H9) as (_ & cell9 & Hs9).
  injection Hs9 as _ <-. by exists G0, labels.
Qed.



(** ** The subscript of the metrics *)


(** ** A complete run *)


(** ** Instances of the further properties *)


Lemma no_release_after_failure_witness :
  Forall (λ e, releases (issued e) = false)
    (log (final (notebook Transcribed.serve_without_scores Example.env_unset
                   (init Example.current)))).
Proof.
  apply (proj2 (no_release_after_failure Transcribed.serve_without_scores
                  Example.env_unset Example.current) (KeyError "F1_MACRO")).
  - vm_compute. reflexivity.
  - assert (cell (final (notebook Transcribed.serve_without_scores Example.env_unset
                           (init Example.current))) = "c9a4f264") as ->
      by (vm_compute; reflexivity).
    unfold cleanup_cells. intros Hin.
    repeat (apply elem_of_cons in Hin as [Hin|Hin]; [discriminate Hin|]).
    by apply elem_of_nil in Hin.
Defined.

Lemma handles_come_from_answers_witness :
  ∃ info G pipe,
    transcript Transcribed.run !! 14
    = Some (train pipe G train_config, GotModel Transcribed.model info).
Proof.
  apply (proj2 (proj2 (handles_come_from_answers Example.serve Example.env_unset
                         Example.current 15 (metrics Transcribed.model)
                         (GotSeries [("F1_MACRO", VDict [("test", VFloat 0.5)])])
                         ltac:(vm_compute; reflexivity)))).
  reflexivity.
Defined.

Lemma context_labels_are_fresh_witness :
  10 = 10
  ∧ ∃ G labels,
      transcript Transcribed.run !! 9 = Some (Graph_node_labels G, GotNames labels)
      ∧ kwargs_get Transcribed.hashgnn_config "contextNodeLabels" = Some (PStrs labels).
Proof.
  apply (context_labels_are_fresh Example.serve Example.env_unset Example.current 10
           (GotSeries (Server.ack "genre-predictor-pipe")) Transcribed.pipe "hashgnn").
  vm_compute. reflexivity.
Defined.


